(** * The countdown timer and its expiry alarm (wbtl-app/timer, App.vue)

    A shallow embedding of the [<script setup>] block of the timer component:
    the reactive refs and plain variables become the fields of [State], the
    component functions become state transformers, and the two browser
    facilities the component relies on ([setInterval]/[setTimeout] with their
    [clear] counterparts) are modelled by an explicit list of active timers.

    Numbers.  The numeric refs hold JavaScript numbers: whatever
    [v-model.number] makes of the text typed into a field.  [State] models
    them as [Z]: it is the component on whole numbers, on which the arithmetic
    the component performs ([*], [+], [--], comparisons) is that of the
    integers up to a magnitude of [2^53] ([exact_up_to]).  The input fields
    are _not_ restricted to their [min]/[max] range here: a number field
    delivers whatever whole number was typed.  What the component does on
    other numbers, a typed fraction or a magnitude beyond [2^53], is computed
    on binary64 floating-point numbers in module [Js].

    Time.  [now] is the wall clock in milliseconds.  A timer never fires before
    it is due; it may fire late ([Elapse] followed by [Fire]) or punctually
    ([advance], the ideal scheduler that fires every due callback in the
    millisecond it falls due). *)

From Stdlib Require Import ZArith List Bool Lia Reals Lra.
From Stdlib Require Ascii String DecimalString DecimalZ Floats.PrimFloat.
Import ListNotations.
Open Scope Z_scope.

(** ** Data *)

(** [flashingMode]: ['none' | 'fade' | 'slow' | 'fast']. *)
Inductive FlashingMode : Type := none | fade | slow | fast.

Definition is_none (m : FlashingMode) : bool :=
  match m with none => true | _ => false end.

(** Timer handles as returned by [window.setInterval] / [window.setTimeout]. *)
Abbreviation handle := nat.

(** The two closures the component hands to the browser. *)
Inductive Callback : Type :=
| TickCb    (* the arrow function given to setInterval in startTimer *)
| AlarmCb.  (* the arrow function given to setTimeout in startAlarm *)

Inductive TimerKind : Type := Repeating | OneShot.

Record Timer : Type := mkTimer {
  kind : TimerKind;
  delay : Z;          (* milliseconds *)
  due : Z;            (* absolute instant of the next firing *)
  callback : Callback
}.

Record State : Type := mkState {
  (* refs *)
  flashingMode : FlashingMode;
  inputHours : Z;
  inputMinutes : Z;
  inputSeconds : Z;
  originalTime : Z;
  remainingTime : Z;
  isRunning : bool;
  hasStarted : bool;
  isAlarming : bool;
  (* let-bound variables of the script *)
  intervalId : option handle;
  alarmTimeoutId : option handle;
  alarmIntervalId : option handle;
  (* the browser: clock, active timers in arming order, next fresh handle *)
  now : Z;
  timers : list (handle * Timer);
  nextHandle : handle;
  (* instrumentation, no counterpart in the source: how many times the
     expiry notification [startAlarm] has been invoked *)
  alarmCalls : nat
}.

(** Field updates. *)
Definition set_flashingMode v st :=
  mkState v (inputHours st) (inputMinutes st) (inputSeconds st) (originalTime st)
    (remainingTime st) (isRunning st) (hasStarted st) (isAlarming st) (intervalId st)
    (alarmTimeoutId st) (alarmIntervalId st) (now st) (timers st) (nextHandle st)
    (alarmCalls st).
Definition set_inputHours v st :=
  mkState (flashingMode st) v (inputMinutes st) (inputSeconds st) (originalTime st)
    (remainingTime st) (isRunning st) (hasStarted st) (isAlarming st) (intervalId st)
    (alarmTimeoutId st) (alarmIntervalId st) (now st) (timers st) (nextHandle st)
    (alarmCalls st).
Definition set_inputMinutes v st :=
  mkState (flashingMode st) (inputHours st) v (inputSeconds st) (originalTime st)
    (remainingTime st) (isRunning st) (hasStarted st) (isAlarming st) (intervalId st)
    (alarmTimeoutId st) (alarmIntervalId st) (now st) (timers st) (nextHandle st)
    (alarmCalls st).
Definition set_inputSeconds v st :=
  mkState (flashingMode st) (inputHours st) (inputMinutes st) v (originalTime st)
    (remainingTime st) (isRunning st) (hasStarted st) (isAlarming st) (intervalId st)
    (alarmTimeoutId st) (alarmIntervalId st) (now st) (timers st) (nextHandle st)
    (alarmCalls st).
Definition set_originalTime v st :=
  mkState (flashingMode st) (inputHours st) (inputMinutes st) (inputSeconds st) v
    (remainingTime st) (isRunning st) (hasStarted st) (isAlarming st) (intervalId st)
    (alarmTimeoutId st) (alarmIntervalId st) (now st) (timers st) (nextHandle st)
    (alarmCalls st).
Definition set_remainingTime v st :=
  mkState (flashingMode st) (inputHours st) (inputMinutes st) (inputSeconds st)
    (originalTime st) v (isRunning st) (hasStarted st) (isAlarming st) (intervalId st)
    (alarmTimeoutId st) (alarmIntervalId st) (now st) (timers st) (nextHandle st)
    (alarmCalls st).
Definition set_isRunning v st :=
  mkState (flashingMode st) (inputHours st) (inputMinutes st) (inputSeconds st)
    (originalTime st) (remainingTime st) v (hasStarted st) (isAlarming st) (intervalId st)
    (alarmTimeoutId st) (alarmIntervalId st) (now st) (timers st) (nextHandle st)
    (alarmCalls st).
Definition set_hasStarted v st :=
  mkState (flashingMode st) (inputHours st) (inputMinutes st) (inputSeconds st)
    (originalTime st) (remainingTime st) (isRunning st) v (isAlarming st) (intervalId st)
    (alarmTimeoutId st) (alarmIntervalId st) (now st) (timers st) (nextHandle st)
    (alarmCalls st).
Definition set_isAlarming v st :=
  mkState (flashingMode st) (inputHours st) (inputMinutes st) (inputSeconds st)
    (originalTime st) (remainingTime st) (isRunning st) (hasStarted st) v (intervalId st)
    (alarmTimeoutId st) (alarmIntervalId st) (now st) (timers st) (nextHandle st)
    (alarmCalls st).
Definition set_intervalId v st :=
  mkState (flashingMode st) (inputHours st) (inputMinutes st) (inputSeconds st)
    (originalTime st) (remainingTime st) (isRunning st) (hasStarted st) (isAlarming st) v
    (alarmTimeoutId st) (alarmIntervalId st) (now st) (timers st) (nextHandle st)
    (alarmCalls st).
Definition set_alarmTimeoutId v st :=
  mkState (flashingMode st) (inputHours st) (inputMinutes st) (inputSeconds st)
    (originalTime st) (remainingTime st) (isRunning st) (hasStarted st) (isAlarming st)
    (intervalId st) v (alarmIntervalId st) (now st) (timers st) (nextHandle st)
    (alarmCalls st).
Definition set_alarmIntervalId v st :=
  mkState (flashingMode st) (inputHours st) (inputMinutes st) (inputSeconds st)
    (originalTime st) (remainingTime st) (isRunning st) (hasStarted st) (isAlarming st)
    (intervalId st) (alarmTimeoutId st) v (now st) (timers st) (nextHandle st)
    (alarmCalls st).
Definition set_now v st :=
  mkState (flashingMode st) (inputHours st) (inputMinutes st) (inputSeconds st)
    (originalTime st) (remainingTime st) (isRunning st) (hasStarted st) (isAlarming st)
    (intervalId st) (alarmTimeoutId st) (alarmIntervalId st) v (timers st) (nextHandle st)
    (alarmCalls st).
Definition set_timers v st :=
  mkState (flashingMode st) (inputHours st) (inputMinutes st) (inputSeconds st)
    (originalTime st) (remainingTime st) (isRunning st) (hasStarted st) (isAlarming st)
    (intervalId st) (alarmTimeoutId st) (alarmIntervalId st) (now st) v (nextHandle st)
    (alarmCalls st).
Definition set_nextHandle v st :=
  mkState (flashingMode st) (inputHours st) (inputMinutes st) (inputSeconds st)
    (originalTime st) (remainingTime st) (isRunning st) (hasStarted st) (isAlarming st)
    (intervalId st) (alarmTimeoutId st) (alarmIntervalId st) (now st) (timers st) v
    (alarmCalls st).
Definition set_alarmCalls v st :=
  mkState (flashingMode st) (inputHours st) (inputMinutes st) (inputSeconds st)
    (originalTime st) (remainingTime st) (isRunning st) (hasStarted st) (isAlarming st)
    (intervalId st) (alarmTimeoutId st) (alarmIntervalId st) (now st) (timers st)
    (nextHandle st) v.

(** ** The browser's timers *)

Module Browser.

Definition lookup (h : handle) (l : list (handle * Timer)) : option Timer :=
  match find (fun p => Nat.eqb (fst p) h) l with
  | Some p => Some (snd p)
  | None => None
  end.

(** [setInterval(cb, d)] / [setTimeout(cb, d)]: a fresh handle, first due
    [d] milliseconds from now. *)
Definition setTimer (k : TimerKind) (cb : Callback) (d : Z) (st : State)
  : handle * State :=
  let h := nextHandle st in
  (h, set_nextHandle (S h)
        (set_timers (timers st ++ [(h, mkTimer k d (now st + d) cb)]) st)).

Definition setInterval := setTimer Repeating.
Definition setTimeout := setTimer OneShot.

(** [clearInterval(h)] / [clearTimeout(h)]: the handle leaves the list of
    active timers; clearing a handle that is not active does nothing. *)
Definition clearTimer (h : handle) (st : State) : State :=
  set_timers (filter (fun p => negb (Nat.eqb (fst p) h)) (timers st)) st.

Definition clearInterval := clearTimer.
Definition clearTimeout := clearTimer.

(** After a repeating timer's callback has run, the timer (if still active)
    is due again one [delay] later. *)
Definition reschedule (h : handle) (st : State) : State :=
  set_timers
    (map (fun p => if Nat.eqb (fst p) h
                   then (fst p, mkTimer (kind (snd p)) (delay (snd p))
                                        (now st + delay (snd p)) (callback (snd p)))
                   else p)
         (timers st)) st.

End Browser.
Import Browser.

(** ** The component's functions *)

(** [const canStart = computed(...)] *)
Definition canStart (st : State) : bool :=
  if hasStarted st then 0 <? remainingTime st
  else (0 <? inputHours st) || (0 <? inputMinutes st) || (0 <? inputSeconds st).

(** The [totalSeconds] local of [startTimer]. *)
Definition totalSeconds (st : State) : Z :=
  inputHours st * 3600 + inputMinutes st * 60 + inputSeconds st.

(** [function pauseTimer()] *)
Definition pauseTimer (st : State) : State :=
  let st := set_isRunning false st in
  match intervalId st with
  | Some h => set_intervalId None (clearInterval h st)
  | None => st
  end.

(** [function startAlarm()] *)
Definition startAlarm (st : State) : State :=
  let st := set_alarmCalls (S (alarmCalls st)) st in
  if is_none (flashingMode st) then st
  else
    let st := set_isAlarming true st in
    let (h, st) := setTimeout AlarmCb 10000 st in
    set_alarmTimeoutId (Some h) st.

(** [function stopAlarm()] *)
Definition stopAlarm (st : State) : State :=
  let st := set_isAlarming false st in
  let st := match alarmTimeoutId st with
            | Some h => set_alarmTimeoutId None (clearTimeout h st)
            | None => st
            end in
  match alarmIntervalId st with
  | Some h => set_alarmIntervalId None (clearInterval h st)
  | None => st
  end.

(** The arrow function [startTimer] passes to [setInterval]. *)
Definition tickCallback (st : State) : State :=
  let st := if 0 <? remainingTime st
            then set_remainingTime (remainingTime st - 1) st
            else st in
  if remainingTime st <=? 0 then startAlarm (pauseTimer st) else st.

(** The same arrow function in the earlier revision of the component
    (src/src/App.vue), which has no alarm. *)
Definition tickCallback_noAlarm (st : State) : State :=
  let st := if 0 <? remainingTime st
            then set_remainingTime (remainingTime st - 1) st
            else st in
  if remainingTime st <=? 0 then pauseTimer st else st.

(** [function startTimer()].  The two early [return]s leave the state as it
    is at that point. *)
Definition startTimer (st : State) : State :=
  let first :=
    if negb (hasStarted st) then
      if totalSeconds st <=? 0 then None
      else Some (set_hasStarted true
                   (set_remainingTime (totalSeconds st)
                      (set_originalTime (totalSeconds st) st)))
    else Some st in
  match first with
  | None => st
  | Some st =>
      if remainingTime st <=? 0 then st
      else
        let st := set_isRunning true st in
        let (h, st) := setInterval TickCb 1000 st in
        set_intervalId (Some h) st
  end.

(** [function resetTimer()] *)
Definition resetTimer (st : State) : State :=
  let st := pauseTimer st in
  set_remainingTime (originalTime st) st.

(** [function deleteTimer()] *)
Definition deleteTimer (st : State) : State :=
  let st := pauseTimer st in
  let st := set_hasStarted false st in
  let st := set_remainingTime 0 st in
  let st := set_originalTime 0 st in
  let st := set_inputHours 0 st in
  let st := set_inputMinutes 0 st in
  set_inputSeconds 0 st.

(** [function handleWindowClick()] *)
Definition handleWindowClick (st : State) : State :=
  if isAlarming st then stopAlarm st else st.

(** The [onUnmounted] hook that ends the component's life: it clears the tick
    interval (without resetting [intervalId]) and stops the alarm. *)
Definition onUnmounted (st : State) : State :=
  let st := match intervalId st with
            | Some h => clearInterval h st
            | None => st
            end in
  stopAlarm st.

(** The progress calculations ([ringRadius] ... [squareProgressOffset]); the
    JavaScript numbers are read as real numbers here. *)
Definition ringRadius : R := 140.
Definition ringCircumference : R := (2 * PI * ringRadius)%R.

(** [const progressPercent = computed(...)] *)
Definition progressPercent (st : State) : R :=
  if negb (hasStarted st) || (originalTime st =? 0)
  then 1%R
  else (IZR (remainingTime st) / IZR (originalTime st))%R.

(** [const progressOffset = computed(...)] *)
Definition progressOffset (st : State) : R :=
  (ringCircumference * (1 - progressPercent st))%R.

Definition squareSize : R := 280.
Definition squareStrokeWidth : R := 12.
Definition squareInset : R := (squareStrokeWidth / 2)%R.
Definition squarePerimeter : R := ((squareSize - squareStrokeWidth) * 4)%R.

(** [const squareProgressOffset = computed(...)] *)
Definition squareProgressOffset (st : State) : R :=
  (squarePerimeter * (1 - progressPercent st))%R.

(** ** What the component displays *)

Module Display.
Import Ascii String.

(** JavaScript strings, as lists of characters. *)
Abbreviation jsstring := (list ascii).

Definition literal (s : string) : jsstring := list_ascii_of_string s.

(** [String(n)] for an integer [n]: its decimal digits, after a minus sign
    when [n] is negative. *)
Definition String_of_number (n : Z) : jsstring :=
  list_ascii_of_string (DecimalString.NilZero.string_of_int (Z.to_int n)).

(** [s.padStart(target, pad)] for a one-character [pad]. *)
Definition padStart (target : nat) (pad : ascii) (s : jsstring) : jsstring :=
  repeat pad (target - List.length s) ++ s.

(** [const displayHours = computed(...)] and its two companions:
    [Math.floor] of a quotient by a positive number is [Z.div], and [%] takes
    the sign of the dividend as [Z.rem] does. *)
Definition displayHours (st : State) : Z := remainingTime st / 3600.
Definition displayMinutes (st : State) : Z := Z.rem (remainingTime st) 3600 / 60.
Definition displaySeconds (st : State) : Z := Z.rem (remainingTime st) 60.

(** [const formattedTime = computed(...)] *)
Definition formattedTime (st : State) : jsstring :=
  let h := padStart 2 "0"%char (String_of_number (displayHours st)) in
  let m := padStart 2 "0"%char (String_of_number (displayMinutes st)) in
  let s := padStart 2 "0"%char (String_of_number (displaySeconds st)) in
  h ++ literal ":" ++ m ++ literal ":" ++ s.

(** What the watcher on [[isRunning, formattedTime]] writes to
    [document.title] when it runs. *)
Definition documentTitle (st : State) : jsstring :=
  if isRunning st then formattedTime st ++ literal " - Timer"
  else literal "Timer - wbtl.app".

(** The decimal digit [d], for [0 <= d <= 9]. *)
Definition digit (d : Z) : ascii := ascii_of_nat (48 + Z.to_nat d).

Definition colon : ascii := ":"%char.

(** The display of a session with nothing remaining, and the title that
    would show it. *)
Definition zero_time : jsstring := literal "00:00:00".
Definition zero_title : jsstring := literal "00:00:00 - Timer".
Definition title_suffix : jsstring := literal " - Timer".

End Display.
Import Display.

(** ** The theme *)

Module Theme.
Import Ascii String.

(** What the theme functions read and write: the system preference
    ([matchMedia('(prefers-color-scheme: dark)').matches]), the [data-theme]
    attribute of the document element, and the [wbtl-theme] item of
    [localStorage]. *)
Record Page : Type := mkPage {
  prefersDark : bool;
  dataTheme : option string;
  storedTheme : option string
}.

Definition light : string := "light".
Definition dark : string := "dark".
Definition system : string := "system".

(** JavaScript truthiness of a [string | null]. *)
Definition truthy (s : option string) : bool :=
  match s with
  | Some s => negb (s =? "")%string
  | None => false
  end.

(** [function getSystemTheme()] *)
Definition getSystemTheme (p : Page) : string :=
  if prefersDark p then "dark" else "light".

(** [function getStoredTheme()] *)
Definition getStoredTheme (p : Page) : option string := storedTheme p.

(** [function setTheme(theme)] *)
Definition setTheme (theme : string) (p : Page) : Page :=
  if (theme =? "system")%string
  then mkPage (prefersDark p) None None
  else mkPage (prefersDark p) (Some theme) (Some theme).

(** [function toggleTheme()] *)
Definition toggleTheme (p : Page) : Page :=
  let current := dataTheme p in
  let system := getSystemTheme p in
  if negb (truthy current)
  then (* currently using the system theme: switch to the opposite *)
    setTheme (if (system =? "dark")%string then "light" else "dark") p
  else
    match current with
    | Some c =>
        if (c =? system)%string
        then setTheme (if (c =? "dark")%string then "light" else "dark") p
        else setTheme "system" p
    | None => p  (* not reached: null is not truthy *)
    end.

(** The theme part of [onMounted]. *)
Definition mountTheme (p : Page) : Page :=
  match getStoredTheme p with
  | Some stored => if truthy (Some stored) then setTheme stored p else p
  | None => p
  end.

(** The [change] listener on the media query, run when the system preference
    becomes [d]. *)
Definition systemChanged (d : bool) (p : Page) : Page :=
  let p := mkPage d (dataTheme p) (storedTheme p) in
  if negb (truthy (getStoredTheme p))
  then mkPage (prefersDark p) None (storedTheme p)
  else p.

(** Which set of colours the style sheet selects: the dark one under
    [[data-theme="dark"]], or under a dark system preference unless
    [[data-theme="light"]]. *)
Definition showsDark (p : Page) : bool :=
  match dataTheme p with
  | Some t => (t =? "dark")%string || (prefersDark p && negb (t =? "light")%string)
  | None => prefersDark p
  end.

Inductive ThemeEvent : Type :=
| Toggle
| SystemChange (d : bool).

Definition theme_step (ev : ThemeEvent) (p : Page) : Page :=
  match ev with
  | Toggle => toggleTheme p
  | SystemChange d => systemChanged d p
  end.

Definition theme_run (evs : list ThemeEvent) (p : Page) : Page :=
  fold_left (fun q ev => theme_step ev q) evs p.

(** A reload: the attribute is gone, the stored item and the system
    preference stay, and [onMounted] runs. *)
Definition reload (p : Page) : Page :=
  mountTheme (mkPage (prefersDark p) None (storedTheme p)).

(** The attribute mirrors the stored choice. *)
Definition mirrored (p : Page) : Prop :=
  dataTheme p = if truthy (storedTheme p) then storedTheme p else None.

End Theme.
Import Theme.

(** ** Delivery of timer callbacks *)

Definition run_callback (cb : Callback) (st : State) : State :=
  match cb with
  | TickCb => tickCallback st
  | AlarmCb => stopAlarm st
  end.

(** The browser runs the callback of timer [h].  Nothing happens when [h] is
    not active (it was cleared, or it is a one-shot timer that already fired)
    or not yet due.  Otherwise the callback runs; afterwards a repeating timer
    that is still active is scheduled again and a one-shot timer leaves the
    list. *)
Definition fire (h : handle) (st : State) : State :=
  match lookup h (timers st) with
  | Some tm =>
      if due tm <=? now st then
        let st := run_callback (callback tm) st in
        match kind tm with
        | Repeating => reschedule h st
        | OneShot => clearTimer h st
        end
      else st
  | None => st
  end.

(** One millisecond of the ideal scheduler: the clock moves on and every timer
    that was active at that instant gets its chance, in arming order. *)
Definition tick_ms (st : State) : State :=
  let st := set_now (now st + 1) st in
  fold_left (fun s h => fire h s) (map fst (timers st)) st.

(** [advance ms]: time passes for [ms] milliseconds with punctual delivery. *)
Definition advance (ms : nat) (st : State) : State := Nat.iter ms tick_ms st.

(** The state of the component after mounting with nothing stored.  What
    [loadSettings] restores on mounting (the alarm mode and the three input
    fields) is what [SelectMode] and the [Type...] events below set. *)
Definition initial : State :=
  mkState none 0 0 0 0 0 false false false None None None 0 [] 1%nat 0%nat.

(** ** What can happen to the component *)

(** The clickable controls of the template; [Elsewhere] is a click on any
    other place of the window. *)
Inductive Button : Type := BtnStart | BtnPause | BtnReset | BtnDelete | Elsewhere.

(** A control can be clicked when the template renders it ([v-if]) and does
    not disable it ([:disabled]). *)
Definition enabled (b : Button) (st : State) : bool :=
  match b with
  | BtnStart =>
      if hasStarted st
      then negb (isRunning st) && (0 <? remainingTime st)  (* timer-section *)
      else canStart st                                      (* input-section *)
  | BtnPause => hasStarted st && isRunning st
  | BtnReset => hasStarted st && negb (remainingTime st =? originalTime st)
  | BtnDelete => hasStarted st
  | Elsewhere => true
  end.

Definition handler (b : Button) (st : State) : State :=
  match b with
  | BtnStart => startTimer st
  | BtnPause => pauseTimer st
  | BtnReset => resetTimer st
  | BtnDelete => deleteTimer st
  | Elsewhere => st
  end.

(** A click runs the control's own handler and then bubbles to the [@click]
    of the root element, [handleWindowClick]. *)
Definition click (b : Button) (st : State) : State :=
  if enabled b st then handleWindowClick (handler b st) else st.

Inductive Event : Type :=
| Click (b : Button)
| TypeHours (v : Z)      (* v-model.number on the three fields, which are *)
| TypeMinutes (v : Z)    (* rendered only while no session exists         *)
| TypeSeconds (v : Z)
| SelectMode (m : FlashingMode)
| Elapse (ms : nat)      (* time passes and no callback is delivered *)
| Fire (h : handle)      (* the browser delivers the callback of timer h *)
| Advance (ms : nat).    (* time passes with punctual delivery *)

Definition step (ev : Event) (st : State) : State :=
  match ev with
  | Click b => click b st
  | TypeHours v => if hasStarted st then st else set_inputHours v st
  | TypeMinutes v => if hasStarted st then st else set_inputMinutes v st
  | TypeSeconds v => if hasStarted st then st else set_inputSeconds v st
  | SelectMode m => set_flashingMode m st
  | Elapse ms => set_now (now st + Z.of_nat ms) st
  | Fire h => fire h st
  | Advance ms => advance ms st
  end.

Definition run (evs : list Event) (st : State) : State :=
  fold_left (fun s ev => step ev s) evs st.

(** The component's functions called directly, without the template's
    gating. *)
Inductive Op : Type :=
| OpStart | OpPause | OpReset | OpDelete   (* the four button handlers *)
| OpTick                                   (* the interval callback *)
| OpTimeout                                (* the auto-dismiss callback *)
| OpInteract.                              (* handleWindowClick *)

Definition apply_op (op : Op) (st : State) : State :=
  match op with
  | OpStart => startTimer st
  | OpPause => pauseTimer st
  | OpReset => resetTimer st
  | OpDelete => deleteTimer st
  | OpTick => tickCallback st
  | OpTimeout => stopAlarm st
  | OpInteract => handleWindowClick st
  end.

Definition apply_ops (ops : list Op) (st : State) : State :=
  fold_left (fun s op => apply_op op s) ops st.

(** ** The earlier revision of the component (src/src/App.vue)

    It has the refs above but for the alarm's, the same template and no click
    handler on the root element.  Its [canStart], [startTimer], [pauseTimer],
    [resetTimer] and [deleteTimer], its [formattedTime] and its progress
    calculations are, statement by statement, the functions above; the arrow
    function its [startTimer] arms is [tickCallback_noAlarm].  It never writes [flashingMode], [isAlarming],
    [alarmTimeoutId] or [alarmIntervalId], and never arms a timeout. *)

Module Old.

Definition run_callback (cb : Callback) (st : State) : State :=
  match cb with
  | TickCb => tickCallback_noAlarm st
  | AlarmCb => st
  end.

Definition fire (h : handle) (st : State) : State :=
  match lookup h (timers st) with
  | Some tm =>
      if due tm <=? now st then
        let st := run_callback (callback tm) st in
        match kind tm with
        | Repeating => reschedule h st
        | OneShot => clearTimer h st
        end
      else st
  | None => st
  end.

Definition tick_ms (st : State) : State :=
  let st := set_now (now st + 1) st in
  fold_left (fun s h => fire h s) (map fst (timers st)) st.

Definition advance (ms : nat) (st : State) : State := Nat.iter ms tick_ms st.

(** A click runs the control's handler and nothing else. *)
Definition click (b : Button) (st : State) : State :=
  if enabled b st then handler b st else st.

(** What can happen to the earlier revision: everything but the choice of an
    alarm mode, for which it has no control. *)
Inductive Event : Type :=
| Click (b : Button)
| TypeHours (v : Z)
| TypeMinutes (v : Z)
| TypeSeconds (v : Z)
| Elapse (ms : nat)
| Fire (h : handle)
| Advance (ms : nat).

Definition step (ev : Event) (st : State) : State :=
  match ev with
  | Click b => click b st
  | TypeHours v => if hasStarted st then st else set_inputHours v st
  | TypeMinutes v => if hasStarted st then st else set_inputMinutes v st
  | TypeSeconds v => if hasStarted st then st else set_inputSeconds v st
  | Elapse ms => set_now (now st + Z.of_nat ms) st
  | Fire h => fire h st
  | Advance ms => advance ms st
  end.

Definition run (evs : list Event) (st : State) : State :=
  fold_left (fun s ev => step ev s) evs st.

End Old.





(** ** The stored settings *)

Module Settings.
Import Ascii String.

(** [indicatorType] and [ringColor], the two refs of the settings that the
    timer itself does not read. *)
Inductive IndicatorType : Type := circle | square.
Inductive RingColor : Type := blue | green | red | purple | orange.

(** What [JSON.parse] can return; of the numbers, the whole ones, which are
    what the [Z] refs of [State] can hold. *)
#[warnings="-register-all"]
Inductive Json : Type :=
| JNull
| JBool (b : bool)
| JNum (z : Z)
| JStr (s : string)
| JArr (l : list Json)
| JObj (fields : list (string * Json)).

(** The [timer-settings] item of [localStorage]: absent, a text that is empty
    or not JSON, or a JSON text, given by the value it parses to.
    [JSON.stringify] and [JSON.parse] are taken to be inverse to each other on
    these values. *)
Inductive Item : Type :=
| Absent
| Unparsable
| Parsed (j : Json).

(** The component with its settings: the timer's state, the two cosmetic refs
    and the stored item. *)
Record Widget : Type := mkWidget {
  engine : State;
  indicatorType : IndicatorType;
  ringColor : RingColor;
  item : Item
}.

Definition indicator_name (t : IndicatorType) : string :=
  match t with circle => "circle" | square => "square" end.

Definition color_name (c : RingColor) : string :=
  match c with
  | blue => "blue" | green => "green" | red => "red"
  | purple => "purple" | orange => "orange"
  end.

Definition mode_name (m : FlashingMode) : string :=
  match m with none => "none" | fade => "fade" | slow => "slow" | fast => "fast" end.

(** [function saveSettings()] *)
Definition saveSettings (w : Widget) : Widget :=
  let settings :=
    JObj [("indicatorType", JStr (indicator_name (indicatorType w)));
          ("ringColor", JStr (color_name (ringColor w)));
          ("flashingMode", JStr (mode_name (flashingMode (engine w))));
          ("lastTimerHours", JNum (inputHours (engine w)));
          ("lastTimerMinutes", JNum (inputMinutes (engine w)));
          ("lastTimerSeconds", JNum (inputSeconds (engine w)))]%string in
  mkWidget (engine w) (indicatorType w) (ringColor w) (Parsed settings).

(** The six keys of [interface StoredSettings]. *)
Definition settings_keys : list string :=
  ["indicatorType"; "ringColor"; "flashingMode";
   "lastTimerHours"; "lastTimerMinutes"; "lastTimerSeconds"]%string.

(** A stored object with a key of its own and none of the six. *)
Definition other_keys_only : Json := JObj [("foo", JNum 1)]%string.

(** [settings.key]: [None] is [undefined].  Of a repeated key [JSON.parse]
    keeps the last value; numbers, booleans, strings and arrays have none of
    the six properties. *)
Definition prop (j : Json) (key : string) : option Json :=
  match j with
  | JObj fields =>
      match find (fun kv => (fst kv =? key)%string) (rev fields) with
      | Some kv => Some (snd kv)
      | None => None
      end
  | _ => None
  end.

(** [v ?? d] *)
Definition nullish (v : option Json) (d : Json) : Json :=
  match v with
  | Some JNull | None => d
  | Some x => x
  end.

(** The values the typed refs of this model can hold. *)
Definition as_indicator (j : Json) : option IndicatorType :=
  match j with
  | JStr s => if (s =? "circle")%string then Some circle
              else if (s =? "square")%string then Some square else None
  | _ => None
  end.

Definition as_color (j : Json) : option RingColor :=
  match j with
  | JStr s => if (s =? "blue")%string then Some blue
              else if (s =? "green")%string then Some green
              else if (s =? "red")%string then Some red
              else if (s =? "purple")%string then Some purple
              else if (s =? "orange")%string then Some orange else None
  | _ => None
  end.

Definition as_mode (j : Json) : option FlashingMode :=
  match j with
  | JStr s => if (s =? "none")%string then Some none
              else if (s =? "fade")%string then Some fade
              else if (s =? "slow")%string then Some slow
              else if (s =? "fast")%string then Some fast else None
  | _ => None
  end.

Definition as_number (j : Json) : option Z :=
  match j with
  | JNum z => Some z
  | _ => None
  end.

(** [function loadSettings()].  Nothing is assigned when the item is absent
    or empty ([if (stored)]), when [JSON.parse] throws, or when it returns
    [null] (the first property access throws inside the [try]).  Otherwise all
    six refs are assigned.  The result is [None] when a value to assign is of
    another kind than its ref (a string under [lastTimerHours], an unknown
    name under [flashingMode]): the component would store it as it is, which
    the typed refs of this model cannot hold.  What is proved of
    [loadSettings] is proved for the items on which it is [Some]: those whose
    values are of the kinds [saveSettings] writes. *)
Definition loadSettings (w : Widget) : option Widget :=
  match item w with
  | Absent | Unparsable | Parsed JNull => Some w
  | Parsed settings =>
      match as_indicator (nullish (prop settings "indicatorType") (JStr "circle")),
            as_color (nullish (prop settings "ringColor") (JStr "blue")),
            as_mode (nullish (prop settings "flashingMode") (JStr "none")),
            as_number (nullish (prop settings "lastTimerHours") (JNum 0)),
            as_number (nullish (prop settings "lastTimerMinutes") (JNum 0)),
            as_number (nullish (prop settings "lastTimerSeconds") (JNum 0))
      with
      | Some t, Some c, Some m, Some h, Some mi, Some se =>
          Some (mkWidget
                  (set_inputSeconds se
                     (set_inputMinutes mi
                        (set_inputHours h (set_flashingMode m (engine w)))))
                  t c (item w))
      | _, _, _, _, _, _ => None
      end
  end.

(** The six watched refs. *)
Definition settings_of (w : Widget)
  : IndicatorType * RingColor * FlashingMode * Z * Z * Z :=
  (indicatorType w, ringColor w, flashingMode (engine w),
   inputHours (engine w), inputMinutes (engine w), inputSeconds (engine w)).

Definition indicator_eqb (a b : IndicatorType) : bool :=
  match a, b with circle, circle | square, square => true | _, _ => false end.

Definition color_eqb (a b : RingColor) : bool :=
  match a, b with
  | blue, blue | green, green | red, red | purple, purple | orange, orange => true
  | _, _ => false
  end.

Definition mode_eqb (a b : FlashingMode) : bool :=
  match a, b with
  | none, none | fade, fade | slow, slow | fast, fast => true
  | _, _ => false
  end.

Definition same_settings (a b : Widget) : bool :=
  indicator_eqb (indicatorType a) (indicatorType b)
  && color_eqb (ringColor a) (ringColor b)
  && mode_eqb (flashingMode (engine a)) (flashingMode (engine b))
  && (inputHours (engine a) =? inputHours (engine b))
  && (inputMinutes (engine a) =? inputMinutes (engine b))
  && (inputSeconds (engine a) =? inputSeconds (engine b)).

(** [watch([indicatorType, ..., inputSeconds], () => saveSettings())]: after
    a turn that changed one of the six refs, the settings are saved. *)
Definition watchSettings (before after : Widget) : Widget :=
  if same_settings before after then after else saveSettings after.

(** A freshly created component, before [onMounted]. *)
Definition fresh (it : Item) : Widget := mkWidget initial circle blue it.

(** The settings part of [onMounted], followed by the watcher. *)
Definition mount (it : Item) : option Widget :=
  match loadSettings (fresh it) with
  | Some w => Some (watchSettings (fresh it) w)
  | None => None
  end.

Inductive WidgetEvent : Type :=
| OnTimer (ev : Event)
| SelectShape (t : IndicatorType)
| SelectColor (c : RingColor).

Definition widget_step (ev : WidgetEvent) (w : Widget) : Widget :=
  let after :=
    match ev with
    | OnTimer e => mkWidget (step e (engine w)) (indicatorType w) (ringColor w) (item w)
    | SelectShape t => mkWidget (engine w) t (ringColor w) (item w)
    | SelectColor c => mkWidget (engine w) (indicatorType w) c (item w)
    end in
  watchSettings w after.

Definition widget_run (evs : list WidgetEvent) (w : Widget) : Widget :=
  fold_left (fun x ev => widget_step ev x) evs w.

(** What a new component would show after mounting on a stored item. *)
Definition restored (it : Item)
  : option (IndicatorType * RingColor * FlashingMode * Z * Z * Z) :=
  match loadSettings (fresh it) with
  | Some w => Some (settings_of w)
  | None => None
  end.

End Settings.
Import Settings.

(** ** The component on JavaScript numbers

    The functions that compute with the numeric refs, once more, on the
    numbers JavaScript has: binary64 floating-point numbers, with IEEE 754
    rounding to nearest.  [v-model.number] passes the typed text through
    [parseFloat], so a field can hold any of them.  Of the browser only the
    handles that are active, each with its callback, are kept: when a callback
    is delivered is as in the model above and plays no part in what it
    computes. *)

Module Js.
Import PrimFloat.
#[local] Open Scope float_scope.

Record State : Type := mkState {
  flashingMode : FlashingMode;
  inputHours : float;
  inputMinutes : float;
  inputSeconds : float;
  originalTime : float;
  remainingTime : float;
  isRunning : bool;
  hasStarted : bool;
  isAlarming : bool;
  intervalId : option handle;
  alarmTimeoutId : option handle;
  active : list (handle * Callback);
  nextHandle : handle
}.

Definition set_inputHours v st :=
  mkState (flashingMode st) v (inputMinutes st) (inputSeconds st) (originalTime st)
    (remainingTime st) (isRunning st) (hasStarted st) (isAlarming st) (intervalId st)
    (alarmTimeoutId st) (active st) (nextHandle st).
Definition set_inputMinutes v st :=
  mkState (flashingMode st) (inputHours st) v (inputSeconds st) (originalTime st)
    (remainingTime st) (isRunning st) (hasStarted st) (isAlarming st) (intervalId st)
    (alarmTimeoutId st) (active st) (nextHandle st).
Definition set_inputSeconds v st :=
  mkState (flashingMode st) (inputHours st) (inputMinutes st) v (originalTime st)
    (remainingTime st) (isRunning st) (hasStarted st) (isAlarming st) (intervalId st)
    (alarmTimeoutId st) (active st) (nextHandle st).
Definition set_originalTime v st :=
  mkState (flashingMode st) (inputHours st) (inputMinutes st) (inputSeconds st) v
    (remainingTime st) (isRunning st) (hasStarted st) (isAlarming st) (intervalId st)
    (alarmTimeoutId st) (active st) (nextHandle st).
Definition set_remainingTime v st :=
  mkState (flashingMode st) (inputHours st) (inputMinutes st) (inputSeconds st)
    (originalTime st) v (isRunning st) (hasStarted st) (isAlarming st) (intervalId st)
    (alarmTimeoutId st) (active st) (nextHandle st).
Definition set_isRunning v st :=
  mkState (flashingMode st) (inputHours st) (inputMinutes st) (inputSeconds st)
    (originalTime st) (remainingTime st) v (hasStarted st) (isAlarming st) (intervalId st)
    (alarmTimeoutId st) (active st) (nextHandle st).
Definition set_hasStarted v st :=
  mkState (flashingMode st) (inputHours st) (inputMinutes st) (inputSeconds st)
    (originalTime st) (remainingTime st) (isRunning st) v (isAlarming st) (intervalId st)
    (alarmTimeoutId st) (active st) (nextHandle st).
Definition set_isAlarming v st :=
  mkState (flashingMode st) (inputHours st) (inputMinutes st) (inputSeconds st)
    (originalTime st) (remainingTime st) (isRunning st) (hasStarted st) v (intervalId st)
    (alarmTimeoutId st) (active st) (nextHandle st).
Definition set_intervalId v st :=
  mkState (flashingMode st) (inputHours st) (inputMinutes st) (inputSeconds st)
    (originalTime st) (remainingTime st) (isRunning st) (hasStarted st) (isAlarming st) v
    (alarmTimeoutId st) (active st) (nextHandle st).
Definition set_alarmTimeoutId v st :=
  mkState (flashingMode st) (inputHours st) (inputMinutes st) (inputSeconds st)
    (originalTime st) (remainingTime st) (isRunning st) (hasStarted st) (isAlarming st)
    (intervalId st) v (active st) (nextHandle st).

(** [setInterval] / [setTimeout]: a fresh handle becomes active. *)
Definition arm (cb : Callback) (st : State) : handle * State :=
  let h := nextHandle st in
  (h, mkState (flashingMode st) (inputHours st) (inputMinutes st) (inputSeconds st)
        (originalTime st) (remainingTime st) (isRunning st) (hasStarted st)
        (isAlarming st) (intervalId st) (alarmTimeoutId st)
        (active st ++ [(h, cb)]) (S h)).

(** [clearInterval] / [clearTimeout] *)
Definition disarm (h : handle) (st : State) : State :=
  mkState (flashingMode st) (inputHours st) (inputMinutes st) (inputSeconds st)
    (originalTime st) (remainingTime st) (isRunning st) (hasStarted st)
    (isAlarming st) (intervalId st) (alarmTimeoutId st)
    (filter (fun p => negb (Nat.eqb (fst p) h)) (active st)) (nextHandle st).

(** The [totalSeconds] local of [startTimer]. *)
Definition totalSeconds (st : State) : float :=
  inputHours st * 3600 + inputMinutes st * 60 + inputSeconds st.

(** [function pauseTimer()] *)
Definition pauseTimer (st : State) : State :=
  let st := set_isRunning false st in
  match intervalId st with
  | Some h => set_intervalId None (disarm h st)
  | None => st
  end.

(** [function startAlarm()] *)
Definition startAlarm (st : State) : State :=
  if is_none (flashingMode st) then st
  else
    let st := set_isAlarming true st in
    let (h, st) := arm AlarmCb st in
    set_alarmTimeoutId (Some h) st.

(** The arrow function [startTimer] passes to [setInterval]. *)
Definition tickCallback (st : State) : State :=
  let st := if 0 <? remainingTime st
            then set_remainingTime (remainingTime st - 1) st
            else st in
  if remainingTime st <=? 0 then startAlarm (pauseTimer st) else st.

(** [function startTimer()] *)
Definition startTimer (st : State) : State :=
  let first :=
    if negb (hasStarted st) then
      if totalSeconds st <=? 0 then None
      else Some (set_hasStarted true
                   (set_remainingTime (totalSeconds st)
                      (set_originalTime (totalSeconds st) st)))
    else Some st in
  match first with
  | None => st
  | Some st =>
      if remainingTime st <=? 0 then st
      else
        let st := set_isRunning true st in
        let (h, st) := arm TickCb st in
        set_intervalId (Some h) st
  end.

(** The browser delivers a tick of the interval [h]; nothing happens when
    [h] has been cleared. *)
Definition tick (h : handle) (st : State) : State :=
  if existsb (fun p => Nat.eqb (fst p) h
                       && match snd p with TickCb => true | AlarmCb => false end)
             (active st)
  then tickCallback st else st.

(** The freshly mounted component, and typing into the three fields (which
    are rendered only while no session exists). *)
Definition initial : State :=
  mkState none 0 0 0 0 0 false false false None None [] 1%nat.

Definition typeHours (v : float) (st : State) : State :=
  if hasStarted st then st else set_inputHours v st.
Definition typeMinutes (v : float) (st : State) : State :=
  if hasStarted st then st else set_inputMinutes v st.
Definition typeSeconds (v : float) (st : State) : State :=
  if hasStarted st then st else set_inputSeconds v st.

(** The session invariant of the data model, decided on these numbers. *)
Definition session_inv (st : State) : bool :=
  (0 <=? remainingTime st) && (remainingTime st <=? originalTime st).

(** The numbers named in the statements below. *)
Definition zero : float := 0.
Definition half : float := 0.5.
Definition minus_half : float := -0.5.
Definition one_and_a_half : float := 1.5.
Definition two_to_the_54 : float := 0x1p54.

End Js.

(** ** Observations *)

Definition is_tick (p : handle * Timer) : bool :=
  match callback (snd p) with TickCb => true | AlarmCb => false end.

Definition is_alarm (p : handle * Timer) : bool :=
  match callback (snd p) with TickCb => false | AlarmCb => true end.

(** The tick handles and alarm timeouts the browser currently holds. *)
Definition armed_ticks (st : State) : list (handle * Timer) := filter is_tick (timers st).
Definition armed_alarms (st : State) : list (handle * Timer) := filter is_alarm (timers st).

(** The timer states of the specification, read off the refs. *)
Inductive TimerState : Type := Idle | Running | Paused | Expired.

Definition timerState (st : State) : TimerState :=
  if negb (hasStarted st) then Idle
  else if isRunning st then Running
  else if remainingTime st <=? 0 then Expired
  else Paused.

Definition tickTimer (d : Z) : Timer := mkTimer Repeating 1000 d TickCb.
Definition alarmTimer (d : Z) : Timer := mkTimer OneShot 10000 d AlarmCb.

(** The session invariant of the data model. *)
Definition session_inv (st : State) : Prop :=
  0 <= remainingTime st <= originalTime st.

(** The three shapes the timer handles can be in. *)
Inductive Shape (st : State) : Prop :=
| Quiet :
    timers st = [] -> intervalId st = None -> alarmTimeoutId st = None ->
    isRunning st = false -> isAlarming st = false -> Shape st
| Ticking (h : handle) (d : Z) :
    timers st = [(h, tickTimer d)] -> intervalId st = Some h ->
    alarmTimeoutId st = None -> isRunning st = true -> isAlarming st = false ->
    hasStarted st = true -> 0 < remainingTime st -> Shape st
| Alarming (h : handle) (d : Z) :
    timers st = [(h, alarmTimer d)] -> alarmTimeoutId st = Some h ->
    intervalId st = None -> isRunning st = false -> isAlarming st = true ->
    hasStarted st = true -> remainingTime st <= 0 -> Shape st.

Definition Inv (st : State) : Prop :=
  Shape st /\ alarmIntervalId st = None /\ session_inv st.

(** ** The specification's words

    Definitions taken from the specification rather than from the source, to
    compare the component with. *)

(** The deadline rule in the specification's words:
    [deadline = start_instant + remaining_seconds], taken when the tick source
    is armed (milliseconds), and
    [remaining = max(0, ceil(deadline - now))] (seconds). *)
Definition ceil_div (a b : Z) : Z := - ((- a) / b).

Definition spec_deadline (started : State) : Z :=
  now started + 1000 * remainingTime started.

Definition spec_remaining (deadline t : Z) : Z :=
  Z.max 0 (ceil_div (deadline - t) 1000).

(** Five seconds are started at instant 0; the first tick is delivered two
    seconds late, at instant 3000. *)
Definition late_tick_trace : list Event :=
  [TypeSeconds 5; Click BtnStart; Elapse 3000; Fire 1].


(** Clamping in the specification's words: each field independently brought
    into its range, hours to [0,99], minutes and seconds to [0,59]. *)
Definition clamp (lo hi v : Z) : Z := Z.max lo (Z.min hi v).

Definition spec_clampedTotal (st : State) : Z :=
  clamp 0 99 (inputHours st) * 3600 + clamp 0 59 (inputMinutes st) * 60
  + clamp 0 59 (inputSeconds st).

(** ** Predicates used in the proofs *)

(** What the countdown consists of: everything but the alarm and the clock. *)
Definition same_session (a b : State) : Prop :=
  remainingTime a = remainingTime b /\ originalTime a = originalTime b /\
  hasStarted a = hasStarted b /\ isRunning a = isRunning b /\
  intervalId a = intervalId b /\ alarmCalls a = alarmCalls b /\
  flashingMode a = flashingMode b.

(** Events that are nothing but the passage of time. *)
Definition passage (ev : Event) : bool :=
  match ev with
  | Elapse _ | Fire _ | Advance _ => true
  | _ => false
  end.

(** A session that is counting down: one tick timer, next due at [d]. *)
Definition ticking_at (st : State) (h : handle) (d r : Z) (c : nat) : Prop :=
  timers st = [(h, tickTimer d)] /\ intervalId st = Some h /\
  isRunning st = true /\ hasStarted st = true /\
  remainingTime st = r /\ alarmCalls st = c.

(** A session that has run out: no tick timer, expiry signalled. *)
Definition expired_at (st : State) (c : nat) : Prop :=
  armed_ticks st = [] /\ intervalId st = None /\
  isRunning st = false /\ hasStarted st = true /\
  remainingTime st = 0 /\ alarmCalls st = c.

(** The closed form: [t0] is the instant the tick source was armed with [r0]
    seconds remaining. *)
Definition countdown (t0 r0 : Z) (c0 : nat) (h : handle) (st : State) : Prop :=
  let e := now st - t0 in
  0 <= e /\
  ((e < 1000 * r0 /\
    ticking_at st h (t0 + 1000 * (e / 1000 + 1)) (r0 - e / 1000) c0)
   \/ (1000 * r0 <= e /\ expired_at st (S c0))).

Definition alarm_at (st : State) (h : handle) (d : Z) : Prop :=
  timers st = [(h, alarmTimer d)] /\ alarmTimeoutId st = Some h /\ isAlarming st = true.

Definition dismissed (st : State) : Prop :=
  timers st = [] /\ alarmTimeoutId st = None /\ alarmIntervalId st = None /\
  isAlarming st = false.

Definition alarm_window (t0 : Z) (h : handle) (st : State) : Prop :=
  let e := now st - t0 in
  0 <= e /\
  ((e < 10000 /\ alarm_at st h (t0 + 10000)) \/ (10000 <= e /\ dismissed st)).

(** The whole numbers on which the countdown's arithmetic is exact in
    JavaScript: a remaining time of at most [2^53] seconds, from which every
    decrement gives the integer result. *)
Definition exact_up_to : Z := 2 ^ 53.

(** ** Further predicates *)

(** What the refs say about each other: without a session both durations are
    zero, and a session always has a positive original duration. *)
Definition coherent (st : State) : Prop :=
  (hasStarted st = false -> remainingTime st = 0 /\ originalTime st = 0) /\
  (hasStarted st = true -> 0 < originalTime st).

(** What the passage of time may do to a session: take time off, never below
    zero, and nothing else. *)
Definition ran_down (a b : State) : Prop :=
  remainingTime b <= remainingTime a /\
  (0 <= remainingTime a -> 0 <= remainingTime b) /\
  originalTime b = originalTime a /\ hasStarted b = hasStarted a /\
  inputHours b = inputHours a /\ inputMinutes b = inputMinutes a /\
  inputSeconds b = inputSeconds a /\ flashingMode b = flashingMode a.





(** ** Proof tools *)

#[local] Arguments Z.mul : simpl never.
#[local] Arguments Z.add : simpl never.
#[local] Arguments Z.sub : simpl never.
#[local] Arguments Z.div : simpl never.
#[local] Arguments Z.leb : simpl never.
#[local] Arguments Z.ltb : simpl never.
#[local] Arguments Z.eqb : simpl never.

Ltac break_if :=
  match goal with
  | |- context [if ?b then _ else _] =>
      lazymatch b with
      | context [if _ then _ else _] => fail
      | _ => destruct b eqn:?
      end
  end.

Ltac to_Z :=
  repeat match goal with
  | H : (_ <=? _) = true |- _ => apply Z.leb_le in H
  | H : (_ <=? _) = false |- _ => apply Z.leb_gt in H
  | H : (_ <? _) = true |- _ => apply Z.ltb_lt in H
  | H : (_ <? _) = false |- _ => apply Z.ltb_ge in H
  | H : (_ =? _) = true |- _ => apply Z.eqb_eq in H
  | H : (_ =? _) = false |- _ => apply Z.eqb_neq in H
  end.

Ltac unfold_ops :=
  cbv [click enabled handler handleWindowClick startTimer pauseTimer resetTimer
       deleteTimer startAlarm stopAlarm tickCallback tickCallback_noAlarm canStart
       totalSeconds run_callback fire lookup setInterval setTimeout setTimer
       clearInterval clearTimeout clearTimer reschedule] in *.

Ltac crunch :=
  repeat (simpl; rewrite ?Nat.eqb_refl; simpl; try break_if);
  simpl; to_Z; try discriminate; try lia.

Ltac solve_Inv :=
  unfold Inv, session_inv; simpl;
  split; [ first [ solve [apply Quiet; simpl; (reflexivity || lia)]
                 | solve [eapply Ticking; simpl; (reflexivity || lia)]
                 | solve [eapply Alarming; simpl; (reflexivity || lia)] ]
         | split; [ reflexivity | lia ] ].

Ltac open_Inv H :=
  let Hs := fresh "Hs" in
  destruct H as [Hs [? ?]]; unfold session_inv in *;
  destruct Hs; simpl in *; subst.

(** ** The handle discipline of the rendered component *)

Lemma fire_Inv h st : Inv st -> Inv (fire h st).
Proof.
  intro H. destruct st. open_Inv H; unfold_ops; simpl.
  - solve_Inv.
  - destruct (Nat.eqb h0 h) eqn:E; simpl; [| solve_Inv].
    rewrite ?E; crunch; solve_Inv.
  - destruct (Nat.eqb h0 h) eqn:E; simpl; [| solve_Inv].
    rewrite ?E; crunch; solve_Inv.
Qed.

Lemma fires_Inv hs st : Inv st -> Inv (fold_left (fun s h => fire h s) hs st).
Proof.
  revert st. induction hs as [|h hs IH]; intros st H; simpl; auto using fire_Inv.
Qed.

Lemma set_now_Inv t st : Inv st -> Inv (set_now t st).
Proof. intro H. destruct st. open_Inv H; solve_Inv. Qed.

Lemma tick_ms_Inv st : Inv st -> Inv (tick_ms st).
Proof. intro H. unfold tick_ms. apply fires_Inv, set_now_Inv, H. Qed.

Lemma advance_Inv ms st : Inv st -> Inv (advance ms st).
Proof.
  intro H. unfold advance. induction ms as [|ms IH]; simpl; auto using tick_ms_Inv.
Qed.

Lemma click_Inv b st : Inv st -> Inv (click b st).
Proof.
  intro H. destruct st. open_Inv H; destruct b; unfold_ops; crunch; solve_Inv.
Qed.

Lemma step_Inv ev st : Inv st -> Inv (step ev st).
Proof.
  intro H. destruct ev; simpl;
    auto using click_Inv, fire_Inv, advance_Inv, set_now_Inv.
  all: try (destruct (hasStarted st) eqn:E; [exact H|]).
  all: destruct st; open_Inv H; simpl in *; try discriminate; solve_Inv.
Qed.

Lemma initial_Inv : Inv initial.
Proof. unfold initial. solve_Inv. Qed.

Lemma run_Inv evs st : Inv st -> Inv (run evs st).
Proof.
  revert st. unfold run.
  induction evs as [|ev evs IH]; intros st H; simpl; auto using step_Inv.
Qed.

Lemma reachable_Inv evs : Inv (run evs initial).
Proof. apply run_Inv, initial_Inv. Qed.

(** ** Facts about the browser's timer list *)

Lemma lookup_In h l tm : lookup h l = Some tm -> In (h, tm) l.
Proof.
  unfold lookup.
  destruct (find (fun p => Nat.eqb (fst p) h) l) as [[h' tm']|] eqn:F; [|discriminate].
  intro E. injection E as <-. apply find_some in F. destruct F as [F1 F2].
  simpl in F2. apply Nat.eqb_eq in F2. subst. exact F1.
Qed.

Lemma no_tick_In l h tm : filter is_tick l = [] -> In (h, tm) l -> callback tm = AlarmCb.
Proof.
  intros F I. destruct (callback tm) eqn:E; [|reflexivity].
  assert (In (h, tm) (filter is_tick l)) as X.
  { apply filter_In. split; [exact I|]. unfold is_tick. simpl. now rewrite E. }
  rewrite F in X. destruct X.
Qed.

Lemma no_tick_filter (f : handle * Timer -> bool) l :
  filter is_tick l = [] -> filter is_tick (filter f l) = [].
Proof.
  induction l as [|p l IH]; simpl; [reflexivity|].
  destruct (is_tick p) eqn:E; [discriminate|]. intro F.
  destruct (f p); simpl; rewrite ?E; auto.
Qed.

Lemma no_tick_map (g : handle * Timer -> handle * Timer) l :
  (forall p, is_tick (g p) = is_tick p) ->
  filter is_tick l = [] -> filter is_tick (map g l) = [].
Proof.
  intro G. induction l as [|p l IH]; simpl; [reflexivity|].
  rewrite G. destruct (is_tick p); [discriminate|]. exact IH.
Qed.

(** ** A session whose tick source is disarmed is frozen *)

Lemma same_session_refl a : same_session a a.
Proof. repeat split. Qed.

Lemma same_session_trans a b c : same_session a b -> same_session b c -> same_session a c.
Proof. unfold same_session. intuition congruence. Qed.

Lemma fire_frozen h st :
  armed_ticks st = [] -> armed_ticks (fire h st) = [] /\ same_session (fire h st) st.
Proof.
  unfold armed_ticks, fire. intro F.
  destruct (lookup h (timers st)) as [tm|] eqn:L; [|split; [exact F|apply same_session_refl]].
  destruct (due tm <=? now st); [|split; [exact F|apply same_session_refl]].
  apply lookup_In in L. rewrite (no_tick_In _ _ _ F L). simpl.
  assert (filter is_tick (timers (stopAlarm st)) = [] /\ same_session (stopAlarm st) st)
    as [F' S'].
  { destruct st. unfold stopAlarm, clearTimeout, clearInterval, clearTimer. simpl in *.
    destruct alarmTimeoutId0, alarmIntervalId0; simpl;
      (split; [repeat apply no_tick_filter; exact F | repeat split]). }
  destruct (kind tm).
  - split.
    + unfold reschedule. simpl. apply no_tick_map; [|exact F'].
      intros [h' tm']. simpl. destruct (Nat.eqb h' h); reflexivity.
    + destruct (stopAlarm st); exact S'.
  - split.
    + unfold clearTimer. simpl. apply no_tick_filter, F'.
    + destruct (stopAlarm st); exact S'.
Qed.

Lemma fires_frozen hs st :
  armed_ticks st = [] ->
  armed_ticks (fold_left (fun s h => fire h s) hs st) = [] /\
  same_session (fold_left (fun s h => fire h s) hs st) st.
Proof.
  revert st. induction hs as [|h hs IH]; intros st F; simpl.
  - split; [exact F|apply same_session_refl].
  - destruct (fire_frozen h st F) as [F1 S1].
    destruct (IH _ F1) as [F2 S2]. split; [exact F2|].
    eapply same_session_trans; eassumption.
Qed.

Lemma tick_ms_frozen st :
  armed_ticks st = [] -> armed_ticks (tick_ms st) = [] /\ same_session (tick_ms st) st.
Proof.
  intro F. unfold tick_ms.
  assert (armed_ticks (set_now (now st + 1) st) = []) as F0 by exact F.
  destruct (fires_frozen (map fst (timers (set_now (now st + 1) st))) _ F0) as [F1 S1].
  split; [exact F1|]. eapply same_session_trans; [exact S1|]. repeat split.
Qed.

Lemma advance_frozen ms st :
  armed_ticks st = [] -> armed_ticks (advance ms st) = [] /\ same_session (advance ms st) st.
Proof.
  intro F. unfold advance. induction ms as [|ms [F1 S1]]; simpl.
  - split; [exact F|apply same_session_refl].
  - destruct (tick_ms_frozen _ F1) as [F2 S2]. split; [exact F2|].
    eapply same_session_trans; eassumption.
Qed.

Lemma passage_frozen evs st :
  forallb passage evs = true -> armed_ticks st = [] ->
  armed_ticks (run evs st) = [] /\ same_session (run evs st) st.
Proof.
  revert st. unfold run. induction evs as [|ev evs IH]; intros st P F; simpl.
  - split; [exact F|apply same_session_refl].
  - simpl in P. apply andb_prop in P. destruct P as [P1 P2].
    assert (armed_ticks (step ev st) = [] /\ same_session (step ev st) st) as [F1 S1].
    { destruct ev; try discriminate; simpl.
      - split; [exact F|repeat split].
      - apply fire_frozen, F.
      - apply advance_frozen, F. }
    destruct (IH _ P2 F1) as [F2 S2]. split; [exact F2|].
    eapply same_session_trans; eassumption.
Qed.

(** The clock is moved by the passage of time only. *)
Lemma now_fire h st : now (fire h st) = now st.
Proof.
  destruct st. unfold_ops. simpl.
  repeat (break_if; simpl); try reflexivity.
  all: repeat match goal with
       | |- context [match ?x with Some _ => _ | None => _ end] => destruct x; simpl
       | |- context [match ?x with TickCb => _ | AlarmCb => _ end] => destruct x; simpl
       | |- context [match ?x with Repeating => _ | OneShot => _ end] => destruct x; simpl
       | |- context [if ?b then _ else _] => destruct b; simpl
       end; reflexivity.
Qed.

Lemma now_fires hs st : now (fold_left (fun s h => fire h s) hs st) = now st.
Proof.
  revert st. induction hs as [|h hs IH]; intros st; simpl; [reflexivity|].
  rewrite IH. apply now_fire.
Qed.

Lemma now_tick_ms st : now (tick_ms st) = now st + 1.
Proof. unfold tick_ms. rewrite now_fires. reflexivity. Qed.

Lemma now_advance ms st : now (advance ms st) = now st + Z.of_nat ms.
Proof.
  unfold advance. induction ms as [|ms IH]; [simpl; lia|].
  rewrite Nat2Z.inj_succ. simpl. rewrite now_tick_ms, IH. lia.
Qed.

Lemma advance_add a b st : advance (a + b) st = advance b (advance a st).
Proof. unfold advance. rewrite Nat.add_comm. apply Nat.iter_add. Qed.

(** ** The countdown under punctual delivery *)

Lemma tick_ms_wait st h d r c :
  ticking_at st h d r c -> now st + 1 < d -> ticking_at (tick_ms st) h d r c.
Proof.
  unfold ticking_at. intros (T & I & R & S & M & C) W.
  destruct st; simpl in *; subst. unfold tick_ms. simpl. unfold_ops. crunch.
  repeat split.
Qed.

Lemma tick_ms_fire st h r c :
  ticking_at st h (now st + 1) r c -> 1 < r ->
  ticking_at (tick_ms st) h (now st + 1 + 1000) (r - 1) c.
Proof.
  unfold ticking_at. intros (T & I & R & S & M & C) W.
  destruct st; simpl in *; subst. unfold tick_ms. simpl. unfold_ops. crunch.
  repeat split.
Qed.

Lemma tick_ms_expire st h c :
  ticking_at st h (now st + 1) 1 c -> expired_at (tick_ms st) (S c).
Proof.
  unfold ticking_at, expired_at, armed_ticks.
  intros (T & I & R & S & M & C).
  destruct st; simpl in *; subst. unfold tick_ms. simpl. unfold_ops. crunch.
  all: repeat split.
Qed.

Lemma tick_ms_expired st c : expired_at st c -> expired_at (tick_ms st) c.
Proof.
  unfold expired_at. intros (T & I & R & S & M & C).
  destruct (tick_ms_frozen st T) as [F (E1 & E2 & E3 & E4 & E5 & E6 & E7)].
  repeat split; congruence.
Qed.

Lemma countdown_tick_ms t0 r0 c0 h st :
  countdown t0 r0 c0 h st -> countdown t0 r0 c0 h (tick_ms st).
Proof.
  unfold countdown. rewrite now_tick_ms. intros [E [[L T]|[L X]]].
  - split; [lia|].
    destruct (Z_lt_le_dec (now st + 1 - t0) (1000 * r0)) as [L'|L'].
    + left. split; [exact L'|].
      destruct (Z_lt_le_dec (now st + 1) (t0 + 1000 * ((now st - t0) / 1000 + 1)))
        as [W|W].
      * replace ((now st + 1 - t0) / 1000) with ((now st - t0) / 1000)
          by (Z.div_mod_to_equations; lia).
        apply tick_ms_wait; assumption.
      * assert (t0 + 1000 * ((now st - t0) / 1000 + 1) = now st + 1) as D
          by (Z.div_mod_to_equations; lia).
        rewrite D in T.
        replace ((now st + 1 - t0) / 1000) with ((now st - t0) / 1000 + 1)
          by (Z.div_mod_to_equations; lia).
        replace (t0 + 1000 * ((now st - t0) / 1000 + 1 + 1)) with (now st + 1 + 1000)
          by lia.
        replace (r0 - ((now st - t0) / 1000 + 1)) with (r0 - (now st - t0) / 1000 - 1)
          by lia.
        apply tick_ms_fire; [exact T|]. Z.div_mod_to_equations; lia.
    + right. split; [exact L'|].
      assert (t0 + 1000 * ((now st - t0) / 1000 + 1) = now st + 1) as D
        by (Z.div_mod_to_equations; lia).
      assert (r0 - (now st - t0) / 1000 = 1) as R
        by (Z.div_mod_to_equations; lia).
      rewrite D, R in T. eapply tick_ms_expire, T.
  - split; [lia|]. right. split; [lia|]. apply tick_ms_expired, X.
Qed.

Lemma countdown_advance t0 r0 c0 h ms st :
  countdown t0 r0 c0 h st -> countdown t0 r0 c0 h (advance ms st).
Proof.
  intro H. unfold advance. induction ms as [|ms IH]; simpl; auto using countdown_tick_ms.
Qed.

(** Arming the tick source from a state without active timers starts the
    countdown. *)
Lemma startTimer_countdown st :
  timers st = [] -> isRunning st = false -> isRunning (startTimer st) = true ->
  0 < remainingTime (startTimer st) /\
  countdown (now st) (remainingTime (startTimer st)) (alarmCalls st) (nextHandle st)
            (startTimer st).
Proof.
  intros T R0 R. destruct st; simpl in *; subst.
  unfold countdown, ticking_at. revert R. unfold_ops. crunch; intros; try discriminate.
  all: split; [lia|]; split; [lia|]; left; rewrite Z.sub_diag; simpl.
  all: change (0 / 1000) with 0; unfold tickTimer; repeat split; try lia;
    try (repeat f_equal; lia).
  destruct hasStarted0; simpl in *; congruence.
Qed.

Lemma advance_no_timers ms st : timers st = [] -> advance ms st = set_now (now st + Z.of_nat ms) st.
Proof.
  intro T. unfold advance. induction ms as [|ms IH].
  - simpl. destruct st; unfold set_now; simpl. f_equal. lia.
  - rewrite Nat2Z.inj_succ. simpl. rewrite IH. unfold tick_ms.
    destruct st; simpl in *; subst; unfold set_now; simpl. f_equal. lia.
Qed.

(** ** The alarm window under punctual delivery *)

Lemma tick_ms_alarm_wait st h d :
  alarm_at st h d -> now st + 1 < d -> alarm_at (tick_ms st) h d.
Proof.
  unfold alarm_at. intros (T & I & A) W.
  destruct st; simpl in *; subst. unfold tick_ms. simpl. unfold_ops. crunch.
  repeat split.
Qed.

Lemma tick_ms_alarm_fire st h :
  alarm_at st h (now st + 1) -> dismissed (tick_ms st).
Proof.
  unfold alarm_at, dismissed. intros (T & I & A).
  destruct st; simpl in *; subst. unfold tick_ms. simpl. unfold_ops. crunch.
  all: destruct alarmIntervalId0; crunch; repeat split.
Qed.

Lemma tick_ms_dismissed st : dismissed st -> dismissed (tick_ms st).
Proof.
  unfold dismissed. intros (T & I & J & A).
  destruct st; simpl in *; subst. unfold tick_ms. simpl. repeat split.
Qed.

Lemma alarm_window_tick_ms t0 h st :
  alarm_window t0 h st -> alarm_window t0 h (tick_ms st).
Proof.
  unfold alarm_window. rewrite now_tick_ms. intros [E [[L A]|[L D]]].
  - split; [lia|].
    destruct (Z_lt_le_dec (now st + 1 - t0) 10000) as [L'|L'].
    + left. split; [exact L'|]. apply tick_ms_alarm_wait; [exact A|lia].
    + right. split; [exact L'|].
      replace (t0 + 10000) with (now st + 1) in A by lia.
      eapply tick_ms_alarm_fire, A.
  - split; [lia|]. right. split; [lia|]. apply tick_ms_dismissed, D.
Qed.

Lemma alarm_window_advance t0 h ms st :
  alarm_window t0 h st -> alarm_window t0 h (advance ms st).
Proof.
  intro H. unfold advance. induction ms as [|ms IH]; simpl; auto using alarm_window_tick_ms.
Qed.

Lemma startAlarm_window st :
  timers st = [] -> is_none (flashingMode st) = false ->
  alarm_window (now st) (nextHandle st) (startAlarm st).
Proof.
  intros T M. destruct st; simpl in *; subst. unfold alarm_window, alarm_at.
  unfold_ops. simpl. rewrite M. simpl. rewrite Z.sub_diag.
  split; [lia|]. left. split; [lia|]. repeat split.
Qed.

Lemma stopAlarm_idem st : stopAlarm (stopAlarm st) = stopAlarm st.
Proof.
  destruct st. unfold_ops. simpl.
  destruct alarmTimeoutId0, alarmIntervalId0; reflexivity.
Qed.

Lemma pauseTimer_idem st : pauseTimer (pauseTimer st) = pauseTimer st.
Proof. destruct st. unfold_ops. simpl. destruct intervalId0; reflexivity. Qed.

Lemma filter_absent h l :
  lookup h l = None -> filter (fun p : handle * Timer => negb (Nat.eqb (fst p) h)) l = l.
Proof.
  unfold lookup. induction l as [|p l IH]; simpl; [reflexivity|].
  intro H. destruct (Nat.eqb (fst p) h) eqn:E; simpl in *.
  - discriminate H.
  - f_equal. apply IH, H.
Qed.

Lemma clearTimer_absent h st : lookup h (timers st) = None -> clearTimer h st = st.
Proof.
  intro L. destruct st. unfold clearTimer. simpl in *. rewrite (filter_absent _ _ L).
  reflexivity.
Qed.

(** ** Starting from a state the component can reach *)

Lemma now_startTimer st : now (startTimer st) = now st.
Proof. destruct st. unfold_ops. crunch; reflexivity. Qed.

Lemma alarmCalls_startTimer st : alarmCalls (startTimer st) = alarmCalls st.
Proof. destruct st. unfold_ops. crunch; reflexivity. Qed.

(** Where the countdown stands [ms] milliseconds after the tick source was
    armed. *)
Lemma countdown_after_start st ms :
  timers st = [] -> isRunning st = false -> isRunning (startTimer st) = true ->
  let r0 := remainingTime (startTimer st) in
  let a := advance ms (startTimer st) in
  0 < r0 /\
  ((Z.of_nat ms < 1000 * r0 /\
    ticking_at a (nextHandle st) (now st + 1000 * (Z.of_nat ms / 1000 + 1))
               (r0 - Z.of_nat ms / 1000) (alarmCalls st))
   \/ (1000 * r0 <= Z.of_nat ms /\ expired_at a (S (alarmCalls st)))).
Proof.
  intros T R0 R. cbv zeta.
  destruct (startTimer_countdown st T R0 R) as [P C]. split; [exact P|].
  apply (countdown_advance _ _ _ _ ms) in C. unfold countdown in C.
  rewrite now_advance, now_startTimer in C.
  replace (now st + Z.of_nat ms - now st) with (Z.of_nat ms) in C by lia.
  tauto.
Qed.

(** A reachable state without a running countdown that [startTimer] sets
    going has no active timer. *)
Lemma reachable_start evs :
  let st := run evs initial in
  isRunning st = false -> isRunning (startTimer st) = true -> timers st = [].
Proof.
  cbv zeta. intros R0 R. destruct (reachable_Inv evs) as [S [A I]].
  destruct S as [T _ _ _ _ | h d _ _ _ R1 _ _ _ | h d T _ _ _ _ St Rem].
  - exact T.
  - congruence.
  - exfalso. revert R. destruct (run evs initial); simpl in *; subst.
    unfold_ops. crunch.
Qed.

Lemma timerState_ticking st h d r c : ticking_at st h d r c -> timerState st = Running.
Proof.
  intros (_ & _ & R & S & _). unfold timerState. now rewrite S, R.
Qed.

Lemma timerState_expired st c : expired_at st c -> timerState st = Expired.
Proof.
  intros (_ & _ & R & S & M & _). unfold timerState. now rewrite S, R, M.
Qed.

Lemma startTimer_first st :
  hasStarted st = false -> 0 < totalSeconds st ->
  isRunning (startTimer st) = true /\
  remainingTime (startTimer st) = totalSeconds st /\
  originalTime (startTimer st) = totalSeconds st.
Proof.
  intros S T. destruct st; simpl in *; subst. revert T. unfold_ops. crunch.
Qed.

(** * The claims *)

(** ** C1: how a tick computes the remaining time *)

(** C1 fails on the component.  After one late tick the session is Running
    with 4 seconds remaining, while the deadline rule gives 2. *)
Lemma late_tick_counterexample :
  let started := run [TypeSeconds 5; Click BtnStart] initial in
  let st := run late_tick_trace initial in
  timerState st = Running /\
  now st = 3000 /\
  remainingTime st = 4 /\
  spec_remaining (spec_deadline started) (now st) = 2.
Proof. vm_compute. repeat split. Qed.

Lemma remainingTime_tickCallback st :
  remainingTime (tickCallback st) =
  if 0 <? remainingTime st then remainingTime st - 1 else remainingTime st.
Proof.
  destruct st. unfold_ops. simpl.
  destruct (0 <? remainingTime0); simpl; repeat (break_if; simpl);
    destruct intervalId0; reflexivity.
Qed.

Lemma remainingTime_tickCallback_noAlarm st :
  remainingTime (tickCallback_noAlarm st) = remainingTime (tickCallback st).
Proof.
  destruct st. unfold_ops. simpl.
  destruct (0 <? remainingTime0); simpl; repeat (break_if; simpl);
    destruct intervalId0; reflexivity.
Qed.

Lemma remainingTime_ticks n st :
  0 <= remainingTime st ->
  remainingTime (Nat.iter n tickCallback st) = Z.max 0 (remainingTime st - Z.of_nat n).
Proof.
  intro P. induction n as [|n IH].
  - simpl. lia.
  - rewrite Nat2Z.inj_succ. simpl. rewrite remainingTime_tickCallback, IH.
    destruct (Z.ltb_spec 0 (Z.max 0 (remainingTime st - Z.of_nat n))); lia.
Qed.

Lemma remainingTime_ticks_noAlarm n st :
  0 <= remainingTime st ->
  remainingTime (Nat.iter n tickCallback_noAlarm st)
  = Z.max 0 (remainingTime st - Z.of_nat n).
Proof.
  intro P. induction n as [|n IH].
  - simpl. lia.
  - rewrite Nat2Z.inj_succ. simpl.
    rewrite remainingTime_tickCallback_noAlarm, remainingTime_tickCallback, IH.
    destruct (Z.ltb_spec 0 (Z.max 0 (remainingTime st - Z.of_nat n))); lia.
Qed.

Lemma spec_remaining_punctual t0 r0 e :
  0 <= e -> 0 < r0 ->
  spec_remaining (t0 + 1000 * r0) (t0 + e) = Z.max 0 (r0 - e / 1000).
Proof.
  intros E R. unfold spec_remaining, ceil_div.
  replace (- (t0 + 1000 * r0 - (t0 + e))) with (e - 1000 * r0) by lia.
  Z.div_mod_to_equations. lia.
Qed.

(** Beyond [exact_up_to] the decrement is no longer the integers': at [2^54]
    seconds a tick takes nothing off, the result rounds back to [2^54]. *)
Example tick_at_two_to_the_54 :
  let st := Js.startTimer (Js.typeSeconds Js.two_to_the_54 Js.initial) in
  Js.remainingTime st = Js.two_to_the_54 /\
  Js.isRunning st = true /\
  Js.remainingTime (Js.tick 1 st) = Js.two_to_the_54.
Proof. vm_compute. repeat split. Qed.

(** C1, amended.  For a remaining time that is a whole number of seconds, at
    most [2^53]: what the component does on a tick of a Running session is to
    take one second off the remaining time, whatever the clock says:
    (a) in every reachable Running state a delivered tick lowers
    [remainingTime] by exactly one, however late it is; (b) [n] firings of the
    callback leave [max(0, r - n)], in both revisions of the component;
    (c) when every tick is delivered punctually, the remaining time of a
    session started from a reachable state does equal
    [max(0, ceil(deadline - now))] at every instant.  The refs of [State] are
    whole numbers; what a typed fraction does is left out here (see C3). *)
Theorem tick_takes_one_second (evs : list Event) :
  let st := run evs initial in
  (forall h tm, isRunning st = true -> remainingTime st <= exact_up_to ->
                lookup h (timers st) = Some tm -> due tm <= now st ->
                remainingTime (fire h st) = remainingTime st - 1) /\
  (forall n s, 0 <= remainingTime s <= exact_up_to ->
               remainingTime (Nat.iter n tickCallback s)
               = Z.max 0 (remainingTime s - Z.of_nat n) /\
               remainingTime (Nat.iter n tickCallback_noAlarm s)
               = Z.max 0 (remainingTime s - Z.of_nat n)) /\
  (isRunning st = false -> isRunning (startTimer st) = true ->
   remainingTime (startTimer st) <= exact_up_to ->
   forall ms, remainingTime (advance ms (startTimer st))
              = spec_remaining (spec_deadline (startTimer st))
                               (now (advance ms (startTimer st)))).
Proof.
  cbv zeta. split; [|split].
  - intros h tm R _ L D. destruct (reachable_Inv evs) as [Sh [A I]].
    destruct (run evs initial). open_Inv (conj Sh (conj A I)); try discriminate.
    revert L D. unfold_ops. simpl. destruct (Nat.eqb h0 h) eqn:E; simpl;
      [|discriminate]. intro L. injection L as <-. simpl. intro D.
    apply Z.leb_le in D. rewrite D. crunch; reflexivity.
  - intros n s [P _]. split; [apply remainingTime_ticks, P|].
    apply remainingTime_ticks_noAlarm, P.
  - intros R0 R _ ms. pose proof (reachable_start evs R0 R) as T.
    rewrite now_advance. unfold spec_deadline. rewrite now_startTimer.
    destruct (countdown_after_start _ ms T R0 R) as [P C].
    rewrite spec_remaining_punctual by lia.
    destruct C as [[L (_ & _ & _ & _ & M & _)]|[L (_ & _ & _ & _ & M & _)]];
      rewrite M; Z.div_mod_to_equations; lia.
Qed.

Lemma tick_takes_one_second_witness :
  let st := run [TypeSeconds 5; Click BtnStart; Elapse 3000] initial in
  let st0 := run [TypeSeconds 5] initial in
  remainingTime (fire 1 st) = remainingTime st - 1 /\
  remainingTime (advance (Z.to_nat 2500) (startTimer st0))
  = spec_remaining (spec_deadline (startTimer st0))
                   (now (advance (Z.to_nat 2500) (startTimer st0))).
Proof.
  cbv zeta. split.
  - apply (proj1 (tick_takes_one_second [TypeSeconds 5; Click BtnStart; Elapse 3000])
                 1%nat (tickTimer 1000)).
    + reflexivity.
    + vm_compute. discriminate.
    + reflexivity.
    + vm_compute. discriminate.
  - apply (proj2 (proj2 (tick_takes_one_second [TypeSeconds 5])));
      try reflexivity. vm_compute. discriminate.
Defined.

(** ** C2: a started countdown expires after exactly its duration *)

(** C2.  From any state the component can reach in which no session exists
    and the input fields add up to a duration [D > 0]: [startTimer] yields a
    Running session with [D] seconds; with punctual ticks the session is still
    Running, and the expiry notification [startAlarm] has not been invoked, at
    every instant before [D] seconds; after exactly [D] seconds the state is
    Expired with [remainingTime = 0], the tick source is disarmed
    ([intervalId] is null and the browser holds no tick timer), and
    [startAlarm] has been invoked exactly once, and it is never invoked again
    however much more time passes. *)
Theorem start_then_expire (evs : list Event) :
  let st := run evs initial in
  let D := totalSeconds st in
  let st' := advance (Z.to_nat (1000 * D)) (startTimer st) in
  hasStarted st = false -> 0 < D ->
  timerState (startTimer st) = Running /\
  remainingTime (startTimer st) = D /\
  originalTime (startTimer st) = D /\
  (forall ms, Z.of_nat ms < 1000 * D ->
     timerState (advance ms (startTimer st)) = Running /\
     0 < remainingTime (advance ms (startTimer st)) /\
     alarmCalls (advance ms (startTimer st)) = alarmCalls st) /\
  timerState st' = Expired /\
  remainingTime st' = 0 /\
  isRunning st' = false /\
  intervalId st' = None /\
  armed_ticks st' = [] /\
  alarmCalls st' = S (alarmCalls st) /\
  (forall ms, 1000 * D <= Z.of_nat ms ->
     timerState (advance ms (startTimer st)) = Expired /\
     alarmCalls (advance ms (startTimer st)) = S (alarmCalls st)).
Proof.
  cbv zeta. intros HS D.
  destruct (startTimer_first _ HS D) as (R & Rem & Orig).
  assert (isRunning (run evs initial) = false) as R0.
  { destruct (reachable_Inv evs) as [Sh _].
    destruct Sh as [_ _ _ ? _ | h d _ _ _ _ _ St _ | h d _ _ _ ? _ _ _]; congruence. }
  pose proof (reachable_start evs R0 R) as T.
  assert (forall ms, 1000 * totalSeconds (run evs initial) <= Z.of_nat ms ->
            expired_at (advance ms (startTimer (run evs initial)))
                       (S (alarmCalls (run evs initial)))) as Late.
  { intros ms L. destruct (countdown_after_start _ ms T R0 R) as [_ [[L' _]|[_ X]]].
    - rewrite Rem in L'. lia.
    - exact X. }
  assert (expired_at (advance (Z.to_nat (1000 * totalSeconds (run evs initial)))
                              (startTimer (run evs initial)))
                     (S (alarmCalls (run evs initial)))) as X
    by (apply Late; lia).
  repeat split; try assumption.
  - destruct (countdown_after_start _ 0 T R0 R) as [_ [[_ K]|[L' _]]].
    + eapply timerState_ticking, K.
    + rewrite Rem in L'. simpl in L'. lia.
  - destruct (countdown_after_start _ ms T R0 R) as [_ [[_ K]|[L' _]]].
    + eapply timerState_ticking, K.
    + rewrite Rem in L'. lia.
  - destruct (countdown_after_start _ ms T R0 R) as [_ [[L' (_ & _ & _ & _ & M & _)]|[L' _]]].
    + rewrite M. Z.div_mod_to_equations. lia.
    + rewrite Rem in L'. lia.
  - destruct (countdown_after_start _ ms T R0 R) as [_ [[_ (_ & _ & _ & _ & _ & C)]|[L' _]]].
    + exact C.
    + rewrite Rem in L'. lia.
  - eapply timerState_expired, X.
  - apply X.
  - apply X.
  - apply X.
  - apply X.
  - apply X.
  - eapply timerState_expired, Late. assumption.
  - apply Late. assumption.
Qed.

Lemma start_then_expire_witness :
  let st := run [TypeSeconds 5; SelectMode fast] initial in
  let st' := advance (Z.to_nat (1000 * 5)) (startTimer st) in
  timerState st' = Expired /\ remainingTime st' = 0 /\ alarmCalls st' = 1%nat.
Proof.
  pose proof (start_then_expire [TypeSeconds 5; SelectMode fast] eq_refl eq_refl) as H.
  cbv zeta in H. destruct H as (_ & _ & _ & _ & E & R & _ & _ & _ & C & _).
  exact (conj E (conj R C)).
Defined.

(** ** C3: the session invariant *)

(** C3 fails on the component.  The seconds field takes the typed fraction
    1.5 and Start opens a session with [originalTime = remainingTime = 1.5],
    which satisfies the invariant.  The first tick leaves 0.5, the session
    still running and its interval still armed; the second tick finds
    [0.5 > 0], takes one off and leaves [-0.5]: the session ends with a
    remaining time below zero.  The guard [remainingTime > 0] of the callback
    keeps whole numbers from passing zero and misses the fractions. *)
Theorem fraction_breaks_session_invariant :
  let st0 := Js.startTimer (Js.typeSeconds Js.one_and_a_half Js.initial) in
  let st1 := Js.tick 1 st0 in
  let st2 := Js.tick 1 st1 in
  Js.originalTime st0 = Js.one_and_a_half /\
  Js.remainingTime st0 = Js.one_and_a_half /\
  Js.isRunning st0 = true /\ Js.intervalId st0 = Some 1%nat /\
  Js.session_inv st0 = true /\
  Js.remainingTime st1 = Js.half /\
  Js.isRunning st1 = true /\ Js.intervalId st1 = Some 1%nat /\
  Js.session_inv st1 = true /\
  Js.remainingTime st2 = Js.minus_half /\
  Js.originalTime st2 = Js.one_and_a_half /\
  Js.hasStarted st2 = true /\ Js.isRunning st2 = false /\
  PrimFloat.ltb (Js.remainingTime st2) Js.zero = true /\
  Js.session_inv st2 = false.
Proof. vm_compute. repeat split. Qed.

(** On whole numbers the invariant is kept.  Every function of the component,
    called in any state of [State] that satisfies
    [0 <= remainingTime <= originalTime], returns a state that satisfies it;
    once a session has started, every function other than [deleteTimer] leaves
    [originalTime] as it was, and [deleteTimer] sets it (and [remainingTime])
    to 0.  The invariant therefore holds in every state the component can
    reach when whole numbers are typed. *)
Theorem session_invariant (op : Op) (st : State) :
  session_inv st ->
  session_inv (apply_op op st) /\
  (hasStarted st = true -> op <> OpDelete ->
     originalTime (apply_op op st) = originalTime st) /\
  originalTime (apply_op OpDelete st) = 0 /\
  remainingTime (apply_op OpDelete st) = 0 /\
  hasStarted (apply_op OpDelete st) = false /\
  (forall evs, session_inv (run evs initial)).
Proof.
  unfold session_inv. intro I.
  split; [|split; [|split; [|split; [|split]]]].
  - destruct st, op; simpl in *; unfold_ops; crunch;
      repeat match goal with
      | |- context [match ?x with Some _ => _ | None => _ end] => destruct x; simpl
      end; lia.
  - intros S N. destruct st, op; simpl in *; subst; try congruence;
      unfold_ops; crunch;
      repeat match goal with
      | |- context [match ?x with Some _ => _ | None => _ end] => destruct x; simpl
      end; reflexivity.
  - destruct st; simpl. unfold_ops. simpl. destruct intervalId0; reflexivity.
  - destruct st; simpl. unfold_ops. simpl. destruct intervalId0; reflexivity.
  - destruct st; simpl. unfold_ops. simpl. destruct intervalId0; reflexivity.
  - intro evs. apply (reachable_Inv evs).
Qed.

Lemma session_invariant_witness :
  let st := run [TypeSeconds 5; Click BtnStart] initial in
  session_inv (apply_op OpTick st) /\ originalTime (apply_op OpTick st) = 5.
Proof.
  cbv zeta.
  assert (session_inv (run [TypeSeconds 5; Click BtnStart] initial)) as I
    by (unfold session_inv; vm_compute; split; discriminate).
  destruct (session_invariant OpTick _ I) as (P1 & P2 & _).
  split; [exact P1|]. apply P2; [reflexivity|discriminate].
Defined.

(** ** C4: the alarm protocol *)

Lemma is_none_false m : m <> none -> is_none m = false.
Proof. destruct m; [congruence| | |]; reflexivity. Qed.

Lemma now_startAlarm st : now (startAlarm st) = now st.
Proof. destruct st. unfold_ops. simpl. destruct (is_none flashingMode0); reflexivity. Qed.

Lemma interaction_dismisses st h d :
  alarm_at st h d ->
  isAlarming (handleWindowClick st) = false /\
  timers (handleWindowClick st) = [] /\
  alarmTimeoutId (handleWindowClick st) = None.
Proof.
  unfold alarm_at. intros (T & I & A). destruct st; simpl in *; subst.
  unfold_ops. simpl. rewrite Nat.eqb_refl. simpl.
  destruct alarmIntervalId0; simpl; repeat split.
Qed.

(** At natural expiry the tick callback calls [startAlarm] in a state in
    which the alarm is Inactive and no timer is armed. *)
Lemma natural_expiry evs :
  let st := run evs initial in
  let pre := pauseTimer (set_remainingTime 0 st) in
  isRunning st = true -> remainingTime st = 1 ->
  tickCallback st = startAlarm pre /\
  timers pre = [] /\ isAlarming pre = false /\
  alarmTimeoutId pre = None /\ alarmIntervalId pre = None.
Proof.
  cbv zeta. intros R M. pose proof (reachable_Inv evs) as H.
  destruct (run evs initial). open_Inv H; try discriminate.
  unfold_ops. crunch; repeat split.
Qed.

(** C4.  Let the alarm be Inactive with no timer armed, as it is when the
    countdown has just run out.  Triggering with mode ['none'] leaves it
    Inactive and arms nothing.  Triggering with any other mode sets
    [isAlarming], and arms one timeout due 10000 ms later; with punctual
    delivery and no interaction [isAlarming] is true at every instant before
    10000 ms and false from 10000 ms on, with nothing left armed; a click
    while the alarm is active clears [isAlarming] at once and removes the
    pending timeout, so that no later passage of time finds anything to fire.
    Dismissing an Inactive alarm changes nothing, [stopAlarm] is idempotent in
    every state, and clearing a handle that is no longer active (fired, or
    cleared before) leaves the state as it is. *)
Theorem alarm_protocol (st : State) :
  timers st = [] -> isAlarming st = false ->
  alarmTimeoutId st = None -> alarmIntervalId st = None ->
  (flashingMode st = none ->
     isAlarming (startAlarm st) = false /\ timers (startAlarm st) = [] /\
     alarmTimeoutId (startAlarm st) = None) /\
  (flashingMode st <> none ->
     let a := startAlarm st in
     isAlarming a = true /\
     alarmTimeoutId a = Some (nextHandle st) /\
     timers a = [(nextHandle st, alarmTimer (now st + 10000))] /\
     (forall ms, isAlarming (advance ms a) = (Z.of_nat ms <? 10000)) /\
     (forall ms, 10000 <= Z.of_nat ms ->
        timers (advance ms a) = [] /\ alarmTimeoutId (advance ms a) = None) /\
     (forall ms, Z.of_nat ms < 10000 ->
        let b := handleWindowClick (advance ms a) in
        isAlarming b = false /\ timers b = [] /\ alarmTimeoutId b = None /\
        forall ms', isAlarming (advance ms' b) = false /\ timers (advance ms' b) = [])) /\
  stopAlarm st = st /\
  handleWindowClick st = st /\
  (forall x, stopAlarm (stopAlarm x) = stopAlarm x) /\
  (forall h x, lookup h (timers x) = None -> clearTimeout h x = x).
Proof.
  intros T A I J.
  assert (forall ms, flashingMode st <> none ->
            alarm_window (now st) (nextHandle st) (advance ms (startAlarm st))) as W.
  { intros ms M. apply alarm_window_advance, startAlarm_window; [exact T|].
    apply is_none_false, M. }
  assert (forall ms, now (advance ms (startAlarm st)) - now st = Z.of_nat ms) as N.
  { intro ms. rewrite now_advance, now_startAlarm. lia. }
  split; [|split; [|split; [|split; [|split]]]].
  - intro M. destruct st; simpl in *; subst. unfold_ops. simpl. repeat split.
  - intro M. cbv zeta. split; [|split; [|split; [|split; [|split]]]].
    + destruct st; simpl in *; subst. unfold_ops. simpl.
      rewrite (is_none_false _ M). reflexivity.
    + destruct st; simpl in *; subst. unfold_ops. simpl.
      rewrite (is_none_false _ M). reflexivity.
    + destruct st; simpl in *; subst. unfold_ops. simpl.
      rewrite (is_none_false _ M). reflexivity.
    + intro ms. destruct (W ms M) as [_ [[L (_ & _ & B)]|[L (_ & _ & _ & B)]]];
        rewrite N in L; rewrite B; symmetry.
      * apply Z.ltb_lt, L.
      * apply Z.ltb_ge, L.
    + intros ms G. destruct (W ms M) as [_ [[L _]|[_ (B1 & B2 & _)]]].
      * rewrite N in L. lia.
      * split; assumption.
    + intros ms G. destruct (W ms M) as [_ [[_ B]|[L _]]].
      * destruct (interaction_dismisses _ _ _ B) as (B1 & B2 & B3).
        repeat split; try assumption.
        -- rewrite (advance_no_timers _ _ B2). exact B1.
        -- rewrite (advance_no_timers _ _ B2). exact B2.
      * rewrite N in L. lia.
  - destruct st; simpl in *; subst. reflexivity.
  - destruct st; simpl in *; subst. reflexivity.
  - apply stopAlarm_idem.
  - intros h x L. apply clearTimer_absent, L.
Qed.

Lemma alarm_protocol_witness :
  let a := startAlarm (run [SelectMode fast] initial) in
  isAlarming a = true /\
  isAlarming (advance (Z.to_nat 9999) a) = true /\
  isAlarming (advance (Z.to_nat 10000) a) = false /\
  isAlarming (handleWindowClick (advance (Z.to_nat 3000) a)) = false /\
  timers (handleWindowClick (advance (Z.to_nat 3000) a)) = [].
Proof.
  cbv zeta.
  destruct (alarm_protocol (run [SelectMode fast] initial) eq_refl eq_refl eq_refl eq_refl)
    as (_ & P & _).
  assert (flashingMode (run [SelectMode fast] initial) <> none) as M
    by (vm_compute; discriminate).
  destruct (P M) as (P1 & _ & _ & P4 & _ & P6).
  split; [exact P1|]. split; [exact (P4 (Z.to_nat 9999))|].
  split; [exact (P4 (Z.to_nat 10000))|].
  assert (Z.of_nat (Z.to_nat 3000) < 10000) as L by (vm_compute; reflexivity).
  destruct (P6 (Z.to_nat 3000) L) as (Q1 & Q2 & _).
  exact (conj Q1 Q2).
Defined.

(** ** C5: pausing freezes the remaining time *)

Lemma Inv_handles st :
  Inv st ->
  map fst (armed_ticks st) = match intervalId st with Some h => [h] | None => [] end /\
  map fst (armed_alarms st)
  = match alarmTimeoutId st with Some h => [h] | None => [] end /\
  (intervalId st = None <-> isRunning st = false) /\
  (alarmTimeoutId st = None <-> isAlarming st = false) /\
  alarmIntervalId st = None.
Proof.
  intro H. destruct st. unfold armed_ticks, armed_alarms.
  open_Inv H; simpl; repeat split; intros; congruence.
Qed.

Lemma pauseTimer_disarms st : Inv st -> armed_ticks (pauseTimer st) = [].
Proof.
  intro H. destruct st. unfold armed_ticks. open_Inv H; unfold_ops; crunch; reflexivity.
Qed.

(** C5.  In every state the component can reach, once [pauseTimer] has
    returned no passage of time changes [remainingTime]: whatever sequence of
    clock advances and callback deliveries follows (the delivery of the tick
    that was pending when [pauseTimer] was called included: a cleared handle
    is never run), the remaining time stays what it was and the session stays
    not Running.  [pauseTimer] itself leaves the remaining time alone, pausing
    twice is the same as pausing once, and pausing a session that is not
    Running changes nothing at all. *)
Theorem pause_freezes (evs later : list Event) :
  forallb passage later = true ->
  let st := run evs initial in
  remainingTime (pauseTimer st) = remainingTime st /\
  armed_ticks (pauseTimer st) = [] /\
  remainingTime (run later (pauseTimer st)) = remainingTime st /\
  isRunning (run later (pauseTimer st)) = false /\
  pauseTimer (pauseTimer st) = pauseTimer st /\
  (isRunning st = false -> pauseTimer st = st).
Proof.
  intros P. cbv zeta.
  pose proof (pauseTimer_disarms _ (reachable_Inv evs)) as D.
  destruct (passage_frozen later _ P D) as [_ (E1 & _ & _ & E4 & _)].
  assert (remainingTime (pauseTimer (run evs initial)) = remainingTime (run evs initial)
          /\ isRunning (pauseTimer (run evs initial)) = false) as [Q1 Q2].
  { destruct (run evs initial). unfold_ops. simpl. destruct intervalId0; split; reflexivity. }
  repeat split.
  - exact Q1.
  - exact D.
  - congruence.
  - congruence.
  - apply pauseTimer_idem.
  - intro R. destruct (Inv_handles _ (reachable_Inv evs)) as (_ & _ & [_ K] & _).
    specialize (K R). destruct (run evs initial); simpl in *; subst. reflexivity.
Qed.

Lemma pause_freezes_witness :
  let st := run [TypeMinutes 1; Click BtnStart; Advance (Z.to_nat 10000);
                 Elapse (Z.to_nat 1500)] initial in
  let later := [Fire 1; Advance (Z.to_nat 50000); Fire 1] in
  remainingTime st = 50 /\
  lookup 1 (timers st) = Some (tickTimer 11000) /\ now st = 11500 /\
  remainingTime (run later (pauseTimer st)) = remainingTime st.
Proof.
  split; [vm_compute; reflexivity|].
  split; [vm_compute; reflexivity|].
  split; [vm_compute; reflexivity|].
  exact (proj1 (proj2 (proj2
    (pause_freezes [TypeMinutes 1; Click BtnStart; Advance (Z.to_nat 10000);
                    Elapse (Z.to_nat 1500)]
                   [Fire 1; Advance (Z.to_nat 50000); Fire 1] eq_refl)))).
Defined.

(** ** C6: canStart and the guards of startTimer *)




(** ** C7: the progress fraction and the stroke offsets *)



Lemma ringCircumference_pos : (0 < ringCircumference)%R.
Proof. unfold ringCircumference, ringRadius. pose proof PI_RGT_0. lra. Qed.



(** ** C8: the timer handles *)

(** C8 fails on the component's functions.  [startTimer] called on a Running
    session arms a second tick timer and forgets the first: two tick timers
    are armed, [pauseTimer] then clears only the second, and the first keeps
    counting the paused session down. *)
Lemma double_start_counterexample :
  let st := apply_ops [OpStart; OpStart] (set_inputSeconds 5 initial) in
  map fst (armed_ticks st) = [1; 2]%nat /\
  intervalId st = Some 2%nat /\
  map fst (armed_ticks (pauseTimer st)) = [1]%nat /\
  remainingTime (pauseTimer st) = 5 /\
  remainingTime (run [Advance (Z.to_nat 1000)] (pauseTimer st)) = 4.
Proof. vm_compute. repeat split. Qed.

Lemma exits_disarm st :
  Inv st ->
  armed_ticks (pauseTimer st) = [] /\
  armed_ticks (resetTimer st) = [] /\
  armed_ticks (deleteTimer st) = [] /\
  armed_alarms (stopAlarm st) = [] /\
  armed_alarms (handleWindowClick st) = [] /\
  (remainingTime (tickCallback st) <= 0 -> armed_ticks (tickCallback st) = []) /\
  (enabled BtnStart st = true -> armed_ticks st = []).
Proof.
  intro H. destruct st. unfold armed_ticks, armed_alarms.
  open_Inv H; unfold_ops; simpl; repeat split; crunch; try reflexivity;
    intros; crunch; try reflexivity.
Qed.

(** C8, amended.  For every sequence of events of the rendered component
    (where the Start control is offered only while the session is not
    Running, and every click also reaches [handleWindowClick]) the browser
    holds exactly the tick timer named by [intervalId] and exactly the alarm
    timeout named by [alarmTimeoutId], hence at most one of each; a tick timer
    is armed iff the session is Running and an alarm timeout iff the alarm is
    active; every exit path (pause, reset, delete, natural expiry, dismissal
    by timeout or by interaction) leaves its handle disarmed; and Start can be
    clicked only when no tick timer is armed. *)
Theorem handle_discipline (evs : list Event) :
  let st := run evs initial in
  (map fst (armed_ticks st) = match intervalId st with Some h => [h] | None => [] end /\
   map fst (armed_alarms st)
   = match alarmTimeoutId st with Some h => [h] | None => [] end /\
   (intervalId st = None <-> isRunning st = false) /\
   (alarmTimeoutId st = None <-> isAlarming st = false) /\
   alarmIntervalId st = None) /\
  (length (armed_ticks st) <= 1)%nat /\
  (length (armed_alarms st) <= 1)%nat /\
  (armed_ticks (pauseTimer st) = [] /\
   armed_ticks (resetTimer st) = [] /\
   armed_ticks (deleteTimer st) = [] /\
   armed_alarms (stopAlarm st) = [] /\
   armed_alarms (handleWindowClick st) = [] /\
   (remainingTime (tickCallback st) <= 0 -> armed_ticks (tickCallback st) = []) /\
   (enabled BtnStart st = true -> armed_ticks st = [])).
Proof.
  cbv zeta. pose proof (reachable_Inv evs) as H.
  pose proof (Inv_handles _ H) as K.
  split; [exact K|]. destruct K as (K1 & K2 & _).
  split; [|split].
  - rewrite <- (length_map fst), K1. destruct (intervalId (run evs initial)); simpl; lia.
  - rewrite <- (length_map fst), K2. destruct (alarmTimeoutId (run evs initial)); simpl; lia.
  - apply exits_disarm, H.
Qed.

Lemma handle_discipline_witness :
  let st := run [TypeSeconds 5] initial in
  enabled BtnStart st = true /\ armed_ticks st = [].
Proof.
  cbv zeta. split; [reflexivity|].
  apply (proj2 (proj2 (proj2 (proj2 (proj2 (proj2 (proj2 (proj2 (proj2
           (handle_discipline [TypeSeconds 5])))))))))).
  reflexivity.
Defined.

(** ** C9: the range of the input fields *)

Lemma first_start_total st :
  hasStarted st = false -> 0 < totalSeconds st ->
  originalTime (startTimer st) = totalSeconds st /\
  (0 <= inputHours st <= 99 -> 0 <= inputMinutes st <= 59 ->
   0 <= inputSeconds st <= 59 -> totalSeconds st = spec_clampedTotal st).
Proof.
  intros S T. split; [apply (startTimer_first _ S T)|].
  unfold totalSeconds, spec_clampedTotal, clamp. lia.
Qed.

(** C9 does not hold of the component: nothing between the fields and
    [startTimer] clamps.  With 100 typed into the hours field the session is
    created with 360000 seconds, where the clamped fields give 356400; with
    one minute and minus five seconds typed it is created with 55 seconds,
    where the clamped fields give 60. *)
Theorem fields_not_clamped :
  let st := run [TypeHours 100] initial in
  let st' := run [TypeMinutes 1; TypeSeconds (-5)] initial in
  (hasStarted st = false /\
   originalTime (startTimer st) = 360000 /\
   remainingTime (startTimer st) = 360000 /\
   spec_clampedTotal st = 356400) /\
  (originalTime (startTimer st') = 55 /\ spec_clampedTotal st' = 60).
Proof. vm_compute. repeat split. Qed.

(** ** C10: deleting while the alarm is active *)

Lemma lookup_filter_ne i h l :
  i <> h ->
  lookup h (filter (fun p : handle * Timer => negb (Nat.eqb (fst p) i)) l) = lookup h l.
Proof.
  intro N. unfold lookup. induction l as [|p l IH]; simpl; [reflexivity|].
  destruct (Nat.eqb (fst p) i) eqn:E; simpl.
  - apply Nat.eqb_eq in E. destruct (Nat.eqb (fst p) h) eqn:F.
    + apply Nat.eqb_eq in F. congruence.
    + exact IH.
  - destruct (Nat.eqb (fst p) h); [reflexivity|exact IH].
Qed.

Lemma alarm_ends_by_op op st :
  isAlarming st = true -> isAlarming (apply_op op st) = false ->
  op = OpTimeout \/ op = OpInteract.
Proof.
  intros A. destruct op; auto; intro B; exfalso; revert B;
    destruct st; simpl in *; subst; unfold_ops; crunch;
    repeat match goal with
    | |- context [match ?x with Some _ => _ | None => _ end] => destruct x; simpl
    end; discriminate.
Qed.

Lemma alarm_ends_by_fire h st :
  isAlarming st = true -> isAlarming (fire h st) = false ->
  exists tm, lookup h (timers st) = Some tm /\ callback tm = AlarmCb.
Proof.
  intros A B. unfold fire in B.
  destruct (lookup h (timers st)) as [tm|] eqn:L; [|congruence].
  exists tm. split; [reflexivity|].
  destruct (callback tm) eqn:C; [exfalso|reflexivity].
  destruct (due tm <=? now st); [|congruence].
  revert B. simpl. destruct st; simpl in *; subst. unfold_ops.
  destruct (kind tm); crunch;
    repeat match goal with
    | |- context [match ?x with Some _ => _ | None => _ end] => destruct x; simpl
    end; discriminate.
Qed.

(** In the states the component can reach, an active alarm always comes with
    its pending timeout, and the tick handle is null. *)
Lemma reachable_alarming evs :
  let st := run evs initial in
  isAlarming st = true ->
  exists h d, alarmTimeoutId st = Some h /\
              lookup h (timers st) = Some (alarmTimer d) /\
              intervalId st = None.
Proof.
  cbv zeta. intro A. pose proof (reachable_Inv evs) as H.
  destruct (run evs initial). open_Inv H; try discriminate.
  exists h, d. unfold lookup. simpl. rewrite Nat.eqb_refl. repeat split.
Qed.

(** C10.  If the alarm is active, with its timeout [h] pending in the browser
    (a handle other than the tick handle), then [deleteTimer] clears the
    session (no session, remaining, original and the three input fields 0,
    not Running, tick handle null) and leaves the alarm exactly as it was:
    [isAlarming] true, [alarmTimeoutId] still [h], the timeout still armed
    with the same due time, as is every timer but the one the tick handle
    names, the mode and the clock unchanged.  From there on the only functions
    of the component that end the alarm are the timeout's callback and
    [handleWindowClick], and the only delivery by the browser that ends it is
    that of an alarm timeout. *)
Theorem deleteTimer_keeps_alarm (st : State) (h : handle) (tm : Timer) :
  isAlarming st = true -> alarmTimeoutId st = Some h ->
  lookup h (timers st) = Some tm -> intervalId st <> Some h ->
  let st' := deleteTimer st in
  (isAlarming st' = true /\ alarmTimeoutId st' = Some h /\
   lookup h (timers st') = Some tm) /\
  (forall h', intervalId st <> Some h' ->
     lookup h' (timers st') = lookup h' (timers st)) /\
  (flashingMode st' = flashingMode st /\
   alarmIntervalId st' = alarmIntervalId st /\
   alarmCalls st' = alarmCalls st /\ now st' = now st) /\
  (hasStarted st' = false /\ remainingTime st' = 0 /\ originalTime st' = 0 /\
   inputHours st' = 0 /\ inputMinutes st' = 0 /\ inputSeconds st' = 0 /\
   isRunning st' = false /\ intervalId st' = None) /\
  (forall op, isAlarming (apply_op op st') = false ->
     op = OpTimeout \/ op = OpInteract) /\
  (forall h', isAlarming (fire h' st') = false ->
     exists tm', lookup h' (timers st') = Some tm' /\ callback tm' = AlarmCb).
Proof.
  intros A I L N. cbv zeta.
  assert (forall h', intervalId st <> Some h' ->
            lookup h' (timers (deleteTimer st)) = lookup h' (timers st)) as F.
  { intros h' N'. destruct st; simpl in *. unfold_ops. simpl.
    destruct intervalId0 as [i|]; simpl; [|reflexivity].
    apply lookup_filter_ne. congruence. }
  assert (isAlarming (deleteTimer st) = true) as A'.
  { destruct st; simpl in *; subst. unfold_ops. simpl.
    destruct intervalId0; reflexivity. }
  split; [|split; [exact F|split; [|split; [|split]]]].
  - split; [exact A'|]. split.
    + destruct st; simpl in *; subst. unfold_ops. simpl.
      destruct intervalId0; reflexivity.
    + rewrite (F h N). exact L.
  - destruct st; simpl in *; subst. unfold_ops. simpl.
    destruct intervalId0; repeat split.
  - destruct st; simpl in *; subst. unfold_ops. simpl.
    destruct intervalId0; repeat split.
  - intros op. apply alarm_ends_by_op, A'.
  - intros h'. apply alarm_ends_by_fire, A'.
Qed.

Lemma deleteTimer_keeps_alarm_witness :
  let st := run [TypeSeconds 1; SelectMode slow; Click BtnStart;
                 Advance (Z.to_nat 1000)] initial in
  isAlarming st = true /\
  isAlarming (deleteTimer st) = true /\
  alarmTimeoutId (deleteTimer st) = Some 2%nat /\
  lookup 2 (timers (deleteTimer st)) = Some (alarmTimer 11000).
Proof.
  cbv zeta. split; [reflexivity|].
  refine (proj1 (deleteTimer_keeps_alarm
    (run [TypeSeconds 1; SelectMode slow; Click BtnStart; Advance (Z.to_nat 1000)] initial)
    2%nat (alarmTimer 11000) eq_refl eq_refl eq_refl _)).
  vm_compute. discriminate.
Defined.

(** ** The specification's two concrete scenarios *)

(** Input 0:00:05, start, five seconds of punctual ticks: Expired with nothing
    remaining, and with mode ['fast'] the alarm is active right after the
    fifth tick and off ten seconds later. *)
Example scenario_five_seconds :
  let st := run [TypeSeconds 5; SelectMode fast; Click BtnStart;
                 Advance (Z.to_nat 5000)] initial in
  timerState st = Expired /\ remainingTime st = 0 /\ isAlarming st = true /\
  timerState (run [Advance (Z.to_nat 4999)] (run [TypeSeconds 5; SelectMode fast;
                                                  Click BtnStart] initial)) = Running /\
  isAlarming (run [Advance (Z.to_nat 9999)] st) = true /\
  isAlarming (run [Advance (Z.to_nat 10000)] st) = false.
Proof. vm_compute. repeat split. Qed.

(** Input 0:01:00, start, ten seconds, pause, fifty seconds, resume: fifty
    seconds remain. *)
Example scenario_pause_resume :
  let st := run [TypeMinutes 1; Click BtnStart; Advance (Z.to_nat 10000);
                 Click BtnPause; Advance (Z.to_nat 50000); Click BtnStart] initial in
  timerState st = Running /\ remainingTime st = 50 /\ originalTime st = 60.
Proof. vm_compute. repeat split. Qed.

(** * Further properties of the component *)

(** ** Coherence of the refs *)

Lemma run_app evs1 evs2 st : run (evs1 ++ evs2) st = run evs2 (run evs1 st).
Proof. unfold run. apply fold_left_app. Qed.

Ltac open_coherent H :=
  let C1 := fresh "C" in let C2 := fresh "C" in
  destruct H as [C1 C2]; simpl in C1, C2.

Ltac solve_coherent :=
  unfold coherent; simpl; split; intros; try discriminate; try lia;
  repeat match goal with
  | H : ?a = ?a -> _ |- _ => specialize (H eq_refl)
  | H : _ /\ _ |- _ => destruct H
  end; subst; try discriminate; try split; try lia.

Lemma fire_coherent h st : Inv st -> coherent st -> coherent (fire h st).
Proof.
  intros H C. destruct st. open_coherent C. open_Inv H; unfold_ops; simpl.
  - destruct hasStarted0; solve_coherent.
  - destruct (Nat.eqb h0 h) eqn:E; simpl; [|solve_coherent].
    rewrite ?E; crunch; solve_coherent.
  - destruct (Nat.eqb h0 h) eqn:E; simpl; [|solve_coherent].
    rewrite ?E; crunch; solve_coherent.
Qed.

Lemma fires_coherent hs st :
  Inv st -> coherent st -> coherent (fold_left (fun s h => fire h s) hs st).
Proof.
  revert st. induction hs as [|h hs IH]; intros st H C; simpl; [exact C|].
  apply IH; [apply fire_Inv, H|apply fire_coherent; assumption].
Qed.

Lemma set_now_coherent t st : coherent st -> coherent (set_now t st).
Proof. intro C. destruct st. exact C. Qed.

Lemma tick_ms_coherent st : Inv st -> coherent st -> coherent (tick_ms st).
Proof.
  intros H C. unfold tick_ms.
  apply fires_coherent; [apply set_now_Inv, H|apply set_now_coherent, C].
Qed.

Lemma advance_coherent ms st : Inv st -> coherent st -> coherent (advance ms st).
Proof.
  intros H C. unfold advance. induction ms as [|ms IH]; simpl; [exact C|].
  apply tick_ms_coherent; [apply (advance_Inv ms), H|exact IH].
Qed.

Lemma click_coherent b st : Inv st -> coherent st -> coherent (click b st).
Proof.
  intros H C. destruct st. open_coherent C.
  open_Inv H; destruct b; unfold_ops; crunch; solve_coherent.
Qed.

Lemma step_coherent ev st : Inv st -> coherent st -> coherent (step ev st).
Proof.
  intros H C. destruct ev; simpl;
    auto using click_coherent, fire_coherent, advance_coherent, set_now_coherent.
  all: try (destruct (hasStarted st) eqn:E; [exact C|]).
  all: destruct st; exact C.
Qed.

Lemma run_coherent evs st : Inv st -> coherent st -> coherent (run evs st).
Proof.
  revert st. unfold run. induction evs as [|ev evs IH]; intros st H C; simpl; [exact C|].
  apply IH; [apply step_Inv, H|apply step_coherent; assumption].
Qed.

Lemma reachable_coherent evs : coherent (run evs initial).
Proof.
  apply run_coherent; [apply initial_Inv|].
  split; simpl; intros; [split; reflexivity|discriminate].
Qed.



(** ** Composing the controls *)

Lemma click_start_eq st :
  Inv st -> isRunning st = false -> isRunning (startTimer st) = true ->
  click BtnStart st = startTimer st.
Proof.
  intros H R0 R. destruct st. revert R.
  open_Inv H; try discriminate; unfold_ops; crunch; intros; try discriminate;
    try reflexivity.
Qed.

Lemma startTimer_resume st :
  hasStarted st = true -> 0 < remainingTime st ->
  isRunning (startTimer st) = true /\ remainingTime (startTimer st) = remainingTime st /\
  originalTime (startTimer st) = originalTime st.
Proof.
  intros S P. destruct st; simpl in *; subst. unfold_ops. crunch.
Qed.

(** The remaining time [ms] milliseconds after a started countdown. *)
Lemma remaining_after_start st ms :
  timers st = [] -> isRunning st = false -> isRunning (startTimer st) = true ->
  remainingTime (advance ms (startTimer st))
  = Z.max 0 (remainingTime (startTimer st) - Z.of_nat ms / 1000) /\
  (Z.of_nat ms < 1000 * remainingTime (startTimer st) ->
     timerState (advance ms (startTimer st)) = Running /\
     alarmCalls (advance ms (startTimer st)) = alarmCalls st) /\
  (1000 * remainingTime (startTimer st) <= Z.of_nat ms ->
     timerState (advance ms (startTimer st)) = Expired /\
     alarmCalls (advance ms (startTimer st)) = S (alarmCalls st)).
Proof.
  intros T R0 R.
  destruct (countdown_after_start st ms T R0 R) as [P [[L K]|[L K]]].
  - split; [|split].
    + destruct K as (_ & _ & _ & _ & M & _). rewrite M. Z.div_mod_to_equations. lia.
    + intros _. split; [eapply timerState_ticking, K|apply K].
    + intro. lia.
  - split; [|split].
    + destruct K as (_ & _ & _ & _ & M & _). rewrite M. Z.div_mod_to_equations. lia.
    + intro. lia.
    + intros _. split; [eapply timerState_expired, K|apply K].
Qed.

Lemma click_reset_state st :
  Inv st -> coherent st -> hasStarted st = true -> remainingTime st <> originalTime st ->
  let s := click BtnReset st in
  timers s = [] /\ isRunning s = false /\ hasStarted s = true /\
  remainingTime s = originalTime st /\ originalTime s = originalTime st /\
  alarmCalls s = alarmCalls st /\ isAlarming s = false.
Proof.
  intros H C S N. destruct st. open_coherent C. revert N.
  open_Inv H; unfold_ops; crunch; intros; try discriminate; try lia; repeat split.
Qed.

(** X2: Reset followed by Start runs the whole original duration again.  In
    any state reached by typing whole numbers, with a session of at most
    [2^53] seconds whose remaining time differs from the original (so that
    Reset is offered), clicking Reset and then Start gives a
    Running session with [remainingTime = originalTime]; with punctual ticks
    its remaining time after [ms] milliseconds is
    [max(0, originalTime - floor(ms / 1000))], it is Running until
    [originalTime] seconds have passed and Expired from then on, with exactly
    one more expiry notification. *)
Theorem reset_then_start_runs_in_full (evs : list Event) :
  let st := run evs initial in
  let s := click BtnStart (click BtnReset st) in
  hasStarted st = true -> remainingTime st <> originalTime st ->
  originalTime st <= exact_up_to ->
  remainingTime s = originalTime st /\
  originalTime s = originalTime st /\
  timerState s = Running /\
  (forall ms,
     remainingTime (advance ms s) = Z.max 0 (originalTime st - Z.of_nat ms / 1000) /\
     (Z.of_nat ms < 1000 * originalTime st ->
        timerState (advance ms s) = Running /\ alarmCalls (advance ms s) = alarmCalls st) /\
     (1000 * originalTime st <= Z.of_nat ms ->
        timerState (advance ms s) = Expired /\
        alarmCalls (advance ms s) = S (alarmCalls st))).
Proof.
  cbv zeta. intros S N _.
  pose proof (reachable_Inv evs) as H. pose proof (reachable_coherent evs) as C.
  destruct (click_reset_state _ H C S N) as (T & R0 & S1 & M & O & A & _).
  assert (0 < originalTime (run evs initial)) as P by (apply C, S).
  assert (0 < remainingTime (click BtnReset (run evs initial))) as P1 by lia.
  destruct (startTimer_resume _ S1 P1) as (R & M' & O').
  rewrite (click_start_eq _ (click_Inv BtnReset _ H) R0 R).
  split; [congruence|]. split; [congruence|].
  pose proof (remaining_after_start _ 0 T R0 R) as (_ & Q & _).
  split; [apply Q; simpl; lia|].
  intro ms. pose proof (remaining_after_start _ ms T R0 R) as Z.
  rewrite M', M, A in Z. exact Z.
Qed.

Lemma reset_then_start_runs_in_full_witness :
  let st := run [TypeSeconds 3; Click BtnStart; Advance (Z.to_nat 3000)] initial in
  let s := click BtnStart (click BtnReset st) in
  timerState st = Expired /\ remainingTime s = 3 /\ timerState s = Running.
Proof.
  cbv zeta. split; [reflexivity|].
  assert (remainingTime (run [TypeSeconds 3; Click BtnStart; Advance (Z.to_nat 3000)] initial)
          <> originalTime (run [TypeSeconds 3; Click BtnStart; Advance (Z.to_nat 3000)] initial))
    as N by (vm_compute; discriminate).
  assert (originalTime (run [TypeSeconds 3; Click BtnStart; Advance (Z.to_nat 3000)] initial)
          <= exact_up_to) as B by (vm_compute; discriminate).
  destruct (reset_then_start_runs_in_full
              [TypeSeconds 3; Click BtnStart; Advance (Z.to_nat 3000)] eq_refl N B)
    as (M & _ & R & _).
  exact (conj M R).
Defined.

Lemma click_pause_state st h d r c :
  Inv st -> ticking_at st h d r c ->
  let s := click BtnPause st in
  armed_ticks s = [] /\ isRunning s = false /\ hasStarted s = true /\
  remainingTime s = r /\ alarmCalls s = c.
Proof.
  intros H (T & I & R & S & M & A). destruct st. simpl in *.
  unfold armed_ticks. open_Inv H; try discriminate.
  unfold_ops. crunch. repeat split.
Qed.

(** X3: pausing and resuming.  Start a countdown of [r] seconds, a whole
    number of at most [2^53], from a reachable state, let [a] milliseconds pass (fewer than the whole
    countdown), click Pause, let any amount of time pass in any way, click
    Resume and let [b] more milliseconds pass.  The time spent paused does not
    count, and neither does the part of a second that was under way when
    Pause was clicked: the remaining time is
    [max(0, r - floor(a/1000) - floor(b/1000))]. *)
Theorem pause_resume_accounting (evs later : list Event) (a b : nat) :
  let st := run evs initial in
  let r := remainingTime (startTimer st) in
  let paused := run later (click BtnPause (advance a (click BtnStart st))) in
  isRunning st = false -> isRunning (startTimer st) = true ->
  forallb passage later = true -> Z.of_nat a < 1000 * r -> r <= exact_up_to ->
  remainingTime paused = r - Z.of_nat a / 1000 /\
  timerState paused = Paused /\
  timerState (click BtnStart paused) = Running /\
  remainingTime (advance b (click BtnStart paused))
  = Z.max 0 (r - Z.of_nat a / 1000 - Z.of_nat b / 1000).
Proof.
  cbv zeta. intros R0 R P L _.
  pose proof (reachable_Inv evs) as H.
  pose proof (reachable_start evs R0 R) as T.
  rewrite (click_start_eq _ H R0 R).
  destruct (countdown_after_start _ a T R0 R) as [Pos [[_ K]|[L' _]]]; [|lia].
  assert (Inv (advance a (startTimer (run evs initial)))) as H2.
  { rewrite <- (click_start_eq _ H R0 R). apply advance_Inv, click_Inv, H. }
  destruct (click_pause_state _ _ _ _ _ H2 K) as (F & R3 & S3 & M3 & _).
  assert (Inv (click BtnPause (advance a (startTimer (run evs initial))))) as H3
    by (apply click_Inv, H2).
  destruct (passage_frozen later _ P F) as [_ (E1 & _ & E3 & E4 & _)].
  assert (Inv (run later (click BtnPause (advance a (startTimer (run evs initial))))))
    as H4 by (apply run_Inv, H3).
  set (s4 := run later (click BtnPause (advance a (startTimer (run evs initial))))) in *.
  assert (remainingTime s4
          = remainingTime (startTimer (run evs initial)) - Z.of_nat a / 1000) as M4
    by congruence.
  assert (0 < remainingTime s4) as P4 by (rewrite M4; Z.div_mod_to_equations; lia).
  assert (hasStarted s4 = true) as S4 by congruence.
  assert (isRunning s4 = false) as R4 by congruence.
  destruct (startTimer_resume _ S4 P4) as (R5 & M5 & _).
  split; [exact M4|]. split.
  { unfold timerState. rewrite S4, R4. simpl.
    destruct (Z.leb_spec (remainingTime s4) 0); [lia|reflexivity]. }
  rewrite (click_start_eq _ H4 R4 R5).
  assert (timers s4 = []) as T4.
  { destruct H4 as [Sh _].
    destruct Sh as [T' _ _ _ _ | ? ? _ _ _ R' _ _ _ | ? ? _ _ _ _ _ _ Rem]; [exact T'|congruence|lia]. }
  split.
  - destruct (remaining_after_start _ 0 T4 R4 R5) as (_ & Q & _).
    apply Q. simpl. lia.
  - destruct (remaining_after_start _ b T4 R4 R5) as (Q & _).
    rewrite Q, M5, M4. reflexivity.
Qed.

Lemma pause_resume_accounting_witness :
  let st := run [TypeMinutes 1] initial in
  let paused := run [Elapse (Z.to_nat 50000); Fire 1]
                    (click BtnPause (advance (Z.to_nat 10900) (click BtnStart st))) in
  remainingTime paused = 60 - 10 /\
  remainingTime (advance (Z.to_nat 49999) (click BtnStart paused)) = 1.
Proof.
  cbv zeta.
  assert (Z.of_nat (Z.to_nat 10900)
          < 1000 * remainingTime (startTimer (run [TypeMinutes 1] initial))) as L
    by (vm_compute; reflexivity).
  assert (remainingTime (startTimer (run [TypeMinutes 1] initial)) <= exact_up_to) as B
    by (vm_compute; discriminate).
  destruct (pause_resume_accounting [TypeMinutes 1] [Elapse (Z.to_nat 50000); Fire 1]
              (Z.to_nat 10900) (Z.to_nat 49999) eq_refl eq_refl eq_refl L B)
    as (M & _ & _ & Q).
  split; [exact M|exact Q].
Defined.

(** X4: Delete brings the component back to where it was when mounted.  In
    every reachable state with a session, clicking Delete gives the initial
    state except for what is not the session's: the alarm mode, the clock, the
    next free handle and the count of expiry notifications.  In particular no
    timer stays armed and the alarm is off.  Called in any state whatever,
    [deleteTimer] leaves Start disabled ([canStart] false), [startTimer]
    without effect, and a second [deleteTimer] without effect. *)
Theorem delete_returns_to_mount (evs : list Event) :
  let st := run evs initial in
  (hasStarted st = true ->
     click BtnDelete st
     = set_flashingMode (flashingMode st)
         (set_now (now st)
            (set_nextHandle (nextHandle st)
               (set_alarmCalls (alarmCalls st) initial)))) /\
  (forall s, canStart (deleteTimer s) = false /\
             startTimer (deleteTimer s) = deleteTimer s /\
             deleteTimer (deleteTimer s) = deleteTimer s /\
             enabled BtnStart (deleteTimer s) = false /\
             timerState (deleteTimer s) = Idle).
Proof.
  cbv zeta. split.
  - intro S. pose proof (reachable_Inv evs) as H. pose proof (reachable_coherent evs) as C.
    destruct (run evs initial). open_coherent C.
    open_Inv H; try discriminate; unfold_ops; crunch; try reflexivity.
  - intro s. destruct s. unfold timerState. unfold_ops. simpl.
    destruct intervalId0; repeat split.
Qed.

Lemma delete_returns_to_mount_witness :
  let st := run [TypeSeconds 1; SelectMode fast; Click BtnStart;
                 Advance (Z.to_nat 1000)] initial in
  isAlarming st = true /\ timers (click BtnDelete st) = [] /\
  isAlarming (click BtnDelete st) = false.
Proof.
  cbv zeta. split; [reflexivity|].
  rewrite (proj1 (delete_returns_to_mount
    [TypeSeconds 1; SelectMode fast; Click BtnStart; Advance (Z.to_nat 1000)]) eq_refl).
  split; reflexivity.
Defined.

(** ** Unmounting *)

Lemma passage_no_timers later s :
  forallb passage later = true -> timers s = [] ->
  run later s = set_now (now (run later s)) s.
Proof.
  revert s. induction later as [|ev later IH]; intros s P T.
  - destruct s; reflexivity.
  - simpl in P. apply andb_prop in P. destruct P as [P1 P2].
    assert (exists t, step ev s = set_now t s) as [t E].
    { destruct ev; try discriminate; simpl.
      - eexists. reflexivity.
      - exists (now s). unfold fire. rewrite T. simpl. destruct s; reflexivity.
      - eexists. apply advance_no_timers, T. }
    change (run (ev :: later) s) with (run later (step ev s)). rewrite E.
    assert (timers (set_now t s) = []) as T' by (destruct s; exact T).
    rewrite (IH _ P2 T'). destruct s; reflexivity.
Qed.

(** X5: the [onUnmounted] hook leaves nothing behind.  In every reachable
    state it leaves no timer armed and the alarm off, so no callback of the
    component can run afterwards: any later passage of time, by any delivery,
    changes nothing but the clock. *)
Theorem unmount_leaves_nothing_armed (evs later : list Event) :
  let st := run evs initial in
  forallb passage later = true ->
  timers (onUnmounted st) = [] /\
  isAlarming (onUnmounted st) = false /\
  run later (onUnmounted st) = set_now (now (run later (onUnmounted st))) (onUnmounted st).
Proof.
  cbv zeta. intro P.
  assert (timers (onUnmounted (run evs initial)) = []
          /\ isAlarming (onUnmounted (run evs initial)) = false) as [T A].
  { pose proof (reachable_Inv evs) as H. destruct (run evs initial).
    open_Inv H; unfold onUnmounted; unfold_ops; crunch; split; reflexivity. }
  split; [exact T|]. split; [exact A|].
  apply passage_no_timers; assumption.
Qed.

Lemma unmount_leaves_nothing_armed_witness :
  let st := run [TypeSeconds 9; Click BtnStart; Advance (Z.to_nat 2500)] initial in
  timers st <> [] /\
  remainingTime (run [Advance (Z.to_nat 5000); Fire 1] (onUnmounted st)) = 7.
Proof.
  cbv zeta. split; [vm_compute; discriminate|].
  rewrite (proj2 (proj2 (unmount_leaves_nothing_armed
    [TypeSeconds 9; Click BtnStart; Advance (Z.to_nat 2500)]
    [Advance (Z.to_nat 5000); Fire 1] eq_refl))).
  reflexivity.
Defined.

(** ** The passage of time *)

Lemma ran_down_refl a : ran_down a a.
Proof. unfold ran_down. repeat split; (reflexivity || lia). Qed.

Lemma ran_down_set_now t a : ran_down a (set_now t a).
Proof. destruct a. unfold ran_down. simpl. repeat split; (reflexivity || lia). Qed.

Lemma ran_down_trans a b c : ran_down a b -> ran_down b c -> ran_down a c.
Proof. unfold ran_down. intuition (try congruence; try lia). Qed.

Lemma fire_ran_down h st : ran_down st (fire h st).
Proof.
  destruct st. unfold ran_down. unfold_ops. simpl.
  repeat match goal with
  | |- context [match ?x with Some _ => _ | None => _ end] => destruct x eqn:?; simpl
  | |- context [match ?x with TickCb => _ | AlarmCb => _ end] => destruct x; simpl
  | |- context [match ?x with Repeating => _ | OneShot => _ end] => destruct x; simpl
  | |- context [if ?b then _ else _] =>
      lazymatch b with
      | context [if _ then _ else _] => fail
      | _ => destruct b eqn:?; simpl
      end
  end; to_Z; repeat split; try reflexivity; try lia.
Qed.

Lemma fires_ran_down hs st : ran_down st (fold_left (fun s h => fire h s) hs st).
Proof.
  revert st. induction hs as [|h hs IH]; intro st; simpl; [apply ran_down_refl|].
  eapply ran_down_trans; [apply fire_ran_down|apply IH].
Qed.

Lemma tick_ms_ran_down st : ran_down st (tick_ms st).
Proof.
  unfold tick_ms. eapply ran_down_trans; [|apply fires_ran_down].
  apply ran_down_set_now.
Qed.

Lemma advance_ran_down ms st : ran_down st (advance ms st).
Proof.
  unfold advance. induction ms as [|ms IH]; simpl; [apply ran_down_refl|].
  eapply ran_down_trans; [exact IH|apply tick_ms_ran_down].
Qed.

Lemma passage_ran_down later st : forallb passage later = true -> ran_down st (run later st).
Proof.
  revert st. induction later as [|ev later IH]; intros st P; [apply ran_down_refl|].
  simpl in P. apply andb_prop in P. destruct P as [P1 P2].
  change (run (ev :: later) st) with (run later (step ev st)).
  eapply ran_down_trans; [|apply IH, P2].
  destruct ev; try discriminate; simpl.
  - apply ran_down_set_now.
  - apply fire_ran_down.
  - apply advance_ran_down.
Qed.

Lemma progressPercent_ran_down a b :
  session_inv a -> ran_down a b -> (progressPercent b <= progressPercent a)%R.
Proof.
  intros [I1 I2] (L & P & O & S & _). specialize (P I1).
  unfold progressPercent. rewrite O, S.
  destruct (negb (hasStarted a) || (originalTime a =? 0)) eqn:E; [lra|].
  apply orb_false_elim in E. destruct E as [_ E]. apply Z.eqb_neq in E.
  assert (0 < IZR (originalTime a))%R as Q by (apply IZR_lt; lia).
  apply Rmult_le_compat_r; [left; apply Rinv_0_lt_compat, Q|apply IZR_le, L].
Qed.

(** X6: time only ever runs the countdown down.  From any state whose refs
    hold whole numbers, and under any delivery of callbacks (punctual, late, in any order, even with
    several tick timers armed), the passage of time never raises
    [remainingTime], never takes it from a non-negative value below zero, and
    changes neither [originalTime], [hasStarted], the input fields nor the
    alarm mode; under the session invariant the progress fraction therefore
    never increases and both stroke offsets never decrease. *)
Theorem time_only_runs_down (later : list Event) (st : State) :
  forallb passage later = true ->
  remainingTime (run later st) <= remainingTime st /\
  (0 <= remainingTime st -> 0 <= remainingTime (run later st)) /\
  originalTime (run later st) = originalTime st /\
  hasStarted (run later st) = hasStarted st /\
  totalSeconds (run later st) = totalSeconds st /\
  flashingMode (run later st) = flashingMode st /\
  (session_inv st ->
     session_inv (run later st) /\
     (progressPercent (run later st) <= progressPercent st)%R /\
     (progressOffset st <= progressOffset (run later st))%R /\
     (squareProgressOffset st <= squareProgressOffset (run later st))%R).
Proof.
  intro P. pose proof (passage_ran_down later st P) as D.
  pose proof D as (L & N & O & S & H & M & Sec & F).
  repeat split; try assumption.
  - unfold totalSeconds. now rewrite H, M, Sec.
  - apply N, H0.
  - rewrite O. destruct H0. lia.
  - apply progressPercent_ran_down; assumption.
  - pose proof (progressPercent_ran_down _ _ H0 D). pose proof ringCircumference_pos.
    unfold progressOffset. nra.
  - pose proof (progressPercent_ran_down _ _ H0 D).
    unfold squareProgressOffset, squarePerimeter, squareSize, squareStrokeWidth. nra.
Qed.

Lemma time_only_runs_down_witness :
  let st := apply_ops [OpStart; OpStart] (set_inputSeconds 5 initial) in
  let later := [Advance (Z.to_nat 2000); Elapse (Z.to_nat 1300); Fire 2; Fire 1] in
  remainingTime (run later st) = 0 /\ 0 <= remainingTime (run later st) <= remainingTime st.
Proof.
  cbv zeta. split; [vm_compute; reflexivity|].
  destruct (time_only_runs_down
              [Advance (Z.to_nat 2000); Elapse (Z.to_nat 1300); Fire 2; Fire 1]
              (apply_ops [OpStart; OpStart] (set_inputSeconds 5 initial)) eq_refl)
    as (L & N & _).
  split; [apply N; vm_compute; discriminate|exact L].
Defined.


(** ** The displayed time *)

Lemma pad2_small n :
  0 <= n < 100 ->
  padStart 2 (digit 0) (String_of_number n) = [digit (n / 10); digit (n mod 10)].
Proof.
  intro R.
  assert (forallb (fun k =>
            if list_eq_dec Ascii.ascii_dec
                 (padStart 2 (digit 0) (String_of_number (Z.of_nat k)))
                 [digit (Z.of_nat k / 10); digit (Z.of_nat k mod 10)]
            then true else false) (seq 0 100) = true) as F by (vm_compute; reflexivity).
  rewrite forallb_forall in F. specialize (F (Z.to_nat n)).
  rewrite Z2Nat.id in F by lia.
  destruct (list_eq_dec Ascii.ascii_dec
              (padStart 2 (digit 0) (String_of_number n))
              [digit (n / 10); digit (n mod 10)]) as [E|E]; [exact E|].
  assert (In (Z.to_nat n) (seq 0 100)) as I by (apply in_seq; lia).
  specialize (F I). discriminate.
Qed.

Lemma digit_inj a b : 0 <= a < 10 -> 0 <= b < 10 -> digit a = digit b -> a = b.
Proof.
  intros A B E. unfold digit in E.
  apply (f_equal Ascii.nat_of_ascii) in E.
  rewrite !Ascii.nat_ascii_embedding in E by lia. lia.
Qed.

Lemma digit_not_colon d : 0 <= d < 10 -> digit d <> colon.
Proof.
  intros D E. unfold digit in E. apply (f_equal Ascii.nat_of_ascii) in E.
  rewrite Ascii.nat_ascii_embedding in E by lia.
  replace (Ascii.nat_of_ascii colon) with 58%nat in E by reflexivity. lia.
Qed.

Lemma length_string_of_uint d :
  length (String.list_ascii_of_string (DecimalString.NilEmpty.string_of_uint d))
  = Decimal.nb_digits d.
Proof. induction d; simpl; congruence. Qed.

Lemma of_uint_two_digits d : (Decimal.nb_digits d <= 2)%nat -> Z.of_uint d <= 99.
Proof.
  intro L.
  destruct d as [|d|d|d|d|d|d|d|d|d|d]; [vm_compute; discriminate|..];
    (destruct d as [|d|d|d|d|d|d|d|d|d|d]; [vm_compute; discriminate|..];
     (destruct d; [vm_compute; discriminate|simpl in L; lia..])).
Qed.

Lemma String_of_number_long n : 100 <= n -> (3 <= length (String_of_number n))%nat.
Proof.
  intro L. unfold String_of_number.
  pose proof (DecimalZ.of_to n) as E.
  destruct n as [|p|p]; try lia. simpl in *.
  destruct (Nat.le_gt_cases (Decimal.nb_digits (Pos.to_uint p)) 2) as [S|S].
  - pose proof (of_uint_two_digits _ S). unfold Z.of_int in E. lia.
  - unfold DecimalString.NilZero.string_of_uint.
    destruct (Pos.to_uint p) eqn:U; [simpl in S; lia|..];
      rewrite length_string_of_uint; lia.
Qed.

Lemma display_ranges st :
  0 <= remainingTime st ->
  displayHours st * 3600 + displayMinutes st * 60 + displaySeconds st = remainingTime st /\
  0 <= displayHours st /\ 0 <= displayMinutes st < 60 /\ 0 <= displaySeconds st < 60 /\
  (remainingTime st < 360000 <-> displayHours st < 100).
Proof.
  intro P. unfold displayHours, displayMinutes, displaySeconds.
  rewrite !Z.rem_mod_nonneg by lia.
  repeat split; Z.div_mod_to_equations; lia.
Qed.

Lemma formattedTime_parts st :
  formattedTime st
  = padStart 2 (digit 0) (String_of_number (displayHours st))
    ++ colon :: padStart 2 (digit 0) (String_of_number (displayMinutes st))
    ++ colon :: padStart 2 (digit 0) (String_of_number (displaySeconds st)).
Proof. reflexivity. Qed.

Lemma length_padStart2 s : (2 <= length (padStart 2 (digit 0) s))%nat.
Proof. unfold padStart. rewrite length_app, repeat_length. lia. Qed.



Lemma formattedTime_digits st :
  0 <= remainingTime st < 360000 ->
  formattedTime st
  = [digit (displayHours st / 10); digit (displayHours st mod 10); colon;
     digit (displayMinutes st / 10); digit (displayMinutes st mod 10); colon;
     digit (displaySeconds st / 10); digit (displaySeconds st mod 10)].
Proof.
  intros [P L]. destruct (display_ranges st P) as (_ & H & M & S & [HH _]).
  specialize (HH L). rewrite formattedTime_parts.
  rewrite !pad2_small by lia. reflexivity.
Qed.

Lemma formattedTime_long st :
  360000 <= remainingTime st -> (9 <= length (formattedTime st))%nat.
Proof.
  intro L. rewrite formattedTime_parts.
  assert (100 <= displayHours st) as H
    by (unfold displayHours; Z.div_mod_to_equations; lia).
  pose proof (String_of_number_long _ H) as K.
  rewrite length_app. simpl. rewrite length_app. simpl.
  pose proof (length_padStart2 (String_of_number (displayMinutes st))).
  pose proof (length_padStart2 (String_of_number (displaySeconds st))).
  unfold padStart at 1. rewrite length_app. lia.
Qed.

(** X8: the format of the displayed time.  For a remaining time that is a
    whole number of seconds below one hundred hours [formattedTime] is exactly the eight characters
    [HH:MM:SS], each field written with two decimal digits, and it determines
    the remaining time; from one hundred hours on (which unclamped input
    fields allow) the hours take three or more characters.  So the display is
    eight characters long exactly when the remaining time is below one
    hundred hours. *)
Theorem formattedTime_format (st : State) :
  0 <= remainingTime st ->
  (remainingTime st < 360000 ->
     formattedTime st
     = [digit (displayHours st / 10); digit (displayHours st mod 10); colon;
        digit (displayMinutes st / 10); digit (displayMinutes st mod 10); colon;
        digit (displaySeconds st / 10); digit (displaySeconds st mod 10)]) /\
  (length (formattedTime st) = 8%nat <-> remainingTime st < 360000) /\
  (forall st', 0 <= remainingTime st' < 360000 -> remainingTime st < 360000 ->
     formattedTime st' = formattedTime st -> remainingTime st' = remainingTime st).
Proof.
  intro P. split; [|split].
  - intro L. apply formattedTime_digits. lia.
  - split.
    + intro E. destruct (Z_lt_le_dec (remainingTime st) 360000) as [L|L]; [exact L|].
      pose proof (formattedTime_long st L). lia.
    + intro L. rewrite formattedTime_digits by lia. reflexivity.
  - intros st' R' L E.
    rewrite (formattedTime_digits st') in E by lia.
    rewrite (formattedTime_digits st) in E by lia.
    destruct (display_ranges st P) as (D & H & M & S & [HH _]).
    destruct (display_ranges st' (proj1 R')) as (D' & H' & M' & S' & [HH' _]).
    specialize (HH L). specialize (HH' (proj2 R')).
    injection E as E1 E2 E3 E4 E5 E6.
    apply digit_inj in E1, E2, E3, E4, E5, E6;
      Z.div_mod_to_equations; lia.
Qed.

Lemma formattedTime_format_witness :
  let st := run [TypeHours 1; TypeMinutes 2; TypeSeconds 5; Click BtnStart] initial in
  formattedTime st
  = [digit 0; digit 1; colon; digit 0; digit 2; colon; digit 0; digit 5] /\
  length (formattedTime st) = 8%nat.
Proof.
  cbv zeta. split; [vm_compute; reflexivity|].
  apply (proj1 (proj2 (formattedTime_format
           (run [TypeHours 1; TypeMinutes 2; TypeSeconds 5; Click BtnStart] initial)
           ltac:(vm_compute; discriminate)))).
  vm_compute. reflexivity.
Defined.

Lemma formattedTime_zero st :
  0 <= remainingTime st -> (formattedTime st = zero_time <-> remainingTime st = 0).
Proof.
  intro P. split.
  - intro E.
    destruct (Z_lt_le_dec (remainingTime st) 360000) as [L|L].
    + rewrite formattedTime_digits in E by lia.
      destruct (display_ranges st P) as (D & H & M & S & [HH _]). specialize (HH L).
      change zero_time
        with [digit 0; digit 0; colon; digit 0; digit 0; colon; digit 0; digit 0] in E.
      injection E as E1 E2 E3 E4 E5 E6.
      apply digit_inj in E1, E2, E3, E4, E5, E6; Z.div_mod_to_equations; lia.
    + pose proof (formattedTime_long st L) as K. rewrite E in K. simpl in K. lia.
  - intro Z. rewrite formattedTime_digits by lia.
    unfold displayHours, displayMinutes, displaySeconds. rewrite Z. reflexivity.
Qed.

(** X9: zero on the display means nothing remains, and a Running timer never
    shows it.  In every reachable state [formattedTime] is [00:00:00] exactly
    when [remainingTime] is 0; a Running session never displays [00:00:00];
    and the title the watcher writes is never [00:00:00 - Timer]: the tick
    that takes the last second off stops the session in the same turn. *)
Theorem zero_display_means_expired (evs : list Event) :
  let st := run evs initial in
  (formattedTime st = zero_time <-> remainingTime st = 0) /\
  (isRunning st = true -> formattedTime st <> zero_time) /\
  documentTitle st <> zero_title.
Proof.
  cbv zeta. pose proof (reachable_Inv evs) as H.
  assert (0 <= remainingTime (run evs initial)) as P by apply H.
  assert (isRunning (run evs initial) = true -> 0 < remainingTime (run evs initial)) as R.
  { intro R. destruct H as [Sh _].
    destruct Sh as [_ _ _ ? _ | ? ? _ _ _ _ _ _ Pos | ? ? _ _ _ ? _ _ _];
      [congruence|exact Pos|congruence]. }
  pose proof (formattedTime_zero _ P) as Z.
  split; [exact Z|]. split.
  - intros Run E. apply Z in E. specialize (R Run). lia.
  - unfold documentTitle. destruct (isRunning (run evs initial)) eqn:Run.
    + change zero_title with (zero_time ++ title_suffix).
      intro E. change (literal _) with title_suffix in E. apply app_inv_tail in E. apply Z in E. specialize (R eq_refl). lia.
    + vm_compute. discriminate.
Qed.

Lemma zero_display_means_expired_witness :
  let st := run [TypeSeconds 2; Click BtnStart; Advance (Z.to_nat 1999)] initial in
  isRunning st = true /\ formattedTime st <> zero_time.
Proof.
  cbv zeta. split; [reflexivity|].
  apply (proj1 (proj2 (zero_display_means_expired
    [TypeSeconds 2; Click BtnStart; Advance (Z.to_nat 1999)]))).
  reflexivity.
Defined.


(** ** The theme toggle *)

Lemma toggleTheme_result p :
  toggleTheme p = mkPage (prefersDark p) None None \/
  toggleTheme p = mkPage (prefersDark p)
                         (Some (if prefersDark p then light else dark))
                         (Some (if prefersDark p then light else dark)).
Proof.
  destruct p as [d a s]. unfold toggleTheme, getSystemTheme, setTheme, truthy. simpl.
  destruct a as [c|]; simpl; [|destruct d; simpl; ((left; reflexivity) || (right; reflexivity))].
  destruct (String.eqb c String.EmptyString) eqn:E0; simpl.
  { destruct d; simpl; ((left; reflexivity) || (right; reflexivity)). }
  unfold light, dark.
  destruct d; simpl;
    match goal with
    | |- context [String.eqb c ?x] => destruct (String.eqb_spec c x) as [->|N]
    end; simpl; ((left; reflexivity) || (right; reflexivity)).
Qed.

(** X10: the toggle always changes what is shown.  When the [data-theme]
    attribute is absent, ["light"] or ["dark"], [toggleTheme] flips the set of
    colours the style sheet selects, whatever the system preference and
    whatever is stored. *)
Theorem toggle_flips_theme (p : Page) :
  dataTheme p = None \/ dataTheme p = Some light \/ dataTheme p = Some dark ->
  showsDark (toggleTheme p) = negb (showsDark p).
Proof.
  destruct p as [d a s]. simpl. intros [->|[->| ->]]; destruct d; reflexivity.
Qed.

Lemma toggle_flips_theme_witness :
  showsDark (toggleTheme (mkPage true (Some dark) (Some dark))) = false.
Proof.
  apply (toggle_flips_theme (mkPage true (Some dark) (Some dark))).
  right. right. reflexivity.
Defined.

(** X11: what a toggle leaves behind.  After [toggleTheme], from any page
    whatever, the stored item and the attribute are equal, and they are either
    both absent or both the theme opposite to the system's; from then on
    toggling is an involution (a third toggle undoes the second). *)
Theorem toggle_stores_what_it_shows (p : Page) :
  let q := toggleTheme p in
  storedTheme q = dataTheme q /\
  (dataTheme q = None \/ dataTheme q = Some (if prefersDark p then light else dark)) /\
  prefersDark q = prefersDark p /\
  toggleTheme (toggleTheme q) = q.
Proof.
  cbv zeta. destruct (toggleTheme_result p) as [E|E]; rewrite E; destruct p as [d a s];
    simpl; destruct d; repeat split; auto.
Qed.

Lemma mirrored_toggle p : mirrored (toggleTheme p).
Proof.
  unfold mirrored. destruct (toggleTheme_result p) as [E|E]; rewrite E; simpl;
    [reflexivity|]. destruct (prefersDark p); reflexivity.
Qed.

Lemma mirrored_systemChanged d p : mirrored p -> mirrored (systemChanged d p).
Proof.
  unfold mirrored, systemChanged, getStoredTheme. destruct p as [d0 a s]. simpl.
  intro M. destruct (truthy s) eqn:T; simpl; rewrite T; [exact M|reflexivity].
Qed.

Lemma mirrored_mount p : dataTheme p = None -> mirrored (mountTheme p).
Proof.
  unfold mirrored, mountTheme, getStoredTheme, setTheme, truthy.
  destruct p as [d a s]. simpl.
  intros ->. destruct s as [s|]; [|reflexivity].
  destruct (String.eqb s String.EmptyString) eqn:E0; simpl; [rewrite E0; reflexivity|].
  match goal with
  | |- context [String.eqb s ?x] => destruct (String.eqb s x)
  end; simpl; [reflexivity|]. rewrite E0. reflexivity.
Qed.

Lemma mirrored_run evs p : mirrored p -> mirrored (theme_run evs p).
Proof.
  revert p. unfold theme_run. induction evs as [|ev evs IH]; intros p M; simpl; [exact M|].
  apply IH. destruct ev; [apply mirrored_toggle|apply mirrored_systemChanged, M].
Qed.

Lemma reload_shows_same p : mirrored p -> showsDark (reload p) = showsDark p.
Proof.
  unfold mirrored, reload, mountTheme, getStoredTheme, setTheme, showsDark, truthy.
  destruct p as [d a s]. simpl. intros ->.
  destruct s as [s|]; [|reflexivity].
  destruct (String.eqb s String.EmptyString) eqn:E0; simpl; [reflexivity|].
  match goal with
  | |- context [if String.eqb s ?x then _ else _] => destruct (String.eqb_spec s x) as [->|N]
  end; simpl; [|reflexivity].
  destruct d; reflexivity.
Qed.

(** X12: the theme survives a reload.  Let the document start without a
    [data-theme] attribute.  After mounting and any sequence of toggles and
    system-preference changes, the attribute is the stored item (absent when
    nothing, or the empty string, is stored), so that reloading the page
    selects the same colours again. *)
Theorem theme_survives_reload (p0 : Page) (evs : list ThemeEvent) :
  dataTheme p0 = None ->
  let p := theme_run evs (mountTheme p0) in
  mirrored p /\ showsDark (reload p) = showsDark p.
Proof.
  intro A. cbv zeta.
  pose proof (mirrored_run evs _ (mirrored_mount p0 A)) as M.
  split; [exact M|apply reload_shows_same, M].
Qed.

Lemma theme_survives_reload_witness :
  let p := theme_run [Toggle; SystemChange true; Toggle; Toggle]
                     (mountTheme (mkPage false None (Some dark))) in
  showsDark p = true /\ showsDark (reload p) = showsDark p.
Proof.
  cbv zeta. split; [reflexivity|].
  apply (theme_survives_reload (mkPage false None (Some dark))
           [Toggle; SystemChange true; Toggle; Toggle] eq_refl).
Defined.

(** X13: a change of the system preference.  When the attribute mirrors the
    stored item: with ["light"] or ["dark"] stored, a change of the system
    preference leaves the attribute and the colours shown as they are; with
    nothing stored it removes the attribute and the colours follow the new
    preference. *)
Theorem system_change_respects_choice (d : bool) (p : Page) :
  mirrored p ->
  (storedTheme p = Some light ->
     showsDark (systemChanged d p) = false /\ dataTheme (systemChanged d p) = Some light) /\
  (storedTheme p = Some dark ->
     showsDark (systemChanged d p) = true /\ dataTheme (systemChanged d p) = Some dark) /\
  (truthy (storedTheme p) = false ->
     showsDark (systemChanged d p) = d /\ dataTheme (systemChanged d p) = None) /\
  storedTheme (systemChanged d p) = storedTheme p.
Proof.
  unfold mirrored, systemChanged, getStoredTheme, showsDark. destruct p as [d0 a s].
  simpl. intros ->. repeat split; intros; subst; simpl;
    try match goal with H : truthy ?s = false |- _ => rewrite H end;
    try (destruct d; reflexivity).
  destruct (truthy s); reflexivity.
Qed.

Lemma system_change_respects_choice_witness :
  showsDark (systemChanged true (toggleTheme (mkPage true None None))) = false.
Proof.
  apply (proj1 (system_change_respects_choice true (toggleTheme (mkPage true None None))
                  (mirrored_toggle _))).
  reflexivity.
Defined.

(** ** Saving and loading the settings *)

Lemma same_settings_true a b : same_settings a b = true <-> settings_of a = settings_of b.
Proof.
  unfold same_settings, settings_of. rewrite !andb_true_iff, !Z.eqb_eq. split.
  - intros (((((E1 & E2) & E3) & E4) & E5) & E6).
    destruct (indicatorType a), (indicatorType b); try discriminate;
      destruct (ringColor a), (ringColor b); try discriminate;
      destruct (flashingMode (engine a)), (flashingMode (engine b)); try discriminate;
      congruence.
  - intro E. injection E as -> -> -> -> -> ->.
    destruct (indicatorType b), (ringColor b), (flashingMode (engine b)); repeat split.
Qed.

Lemma load_saved w w0 :
  loadSettings (mkWidget (engine w0) (indicatorType w0) (ringColor w0)
                         (item (saveSettings w)))
  = Some (mkWidget
            (set_inputSeconds (inputSeconds (engine w))
               (set_inputMinutes (inputMinutes (engine w))
                  (set_inputHours (inputHours (engine w))
                     (set_flashingMode (flashingMode (engine w)) (engine w0)))))
            (indicatorType w) (ringColor w) (item (saveSettings w))).
Proof.
  destruct w as [e t c it]. unfold saveSettings, loadSettings. simpl.
  destruct t, c, (flashingMode e); reflexivity.
Qed.

Lemma restored_saved w : restored (item (saveSettings w)) = Some (settings_of w).
Proof.
  unfold restored.
  change (fresh (item (saveSettings w)))
    with (mkWidget (engine (fresh Absent)) (indicatorType (fresh Absent))
                   (ringColor (fresh Absent)) (item (saveSettings w))).
  rewrite load_saved. reflexivity.
Qed.


(** X15: loading tolerates what it finds.  With no item, an item that is empty
    or not JSON, or the JSON text [null], [loadSettings] leaves the component
    exactly as it is.  With any other JSON value that offers none of the six
    keys of the settings (a number, a string, an array, an object that has
    other keys only, or [null] under some of the six), all six settings become
    the defaults: circle, blue, none and three zero fields; the session itself
    is not touched. *)
Theorem settings_load_tolerant (w : Widget) :
  (item w = Absent \/ item w = Unparsable \/ item w = Parsed JNull ->
     loadSettings w = Some w) /\
  (forall j, item w = Parsed j -> j <> JNull ->
     (forall key, In key settings_keys ->
        prop j key = None \/ prop j key = Some JNull) ->
     loadSettings w
     = Some (mkWidget
               (set_inputSeconds 0
                  (set_inputMinutes 0
                     (set_inputHours 0 (set_flashingMode none (engine w)))))
               circle blue (item w))).
Proof.
  split.
  - unfold loadSettings. intros [E|[E|E]]; rewrite E; reflexivity.
  - intros j E N K. unfold loadSettings. rewrite E.
    destruct j; try congruence;
      repeat match goal with
      | |- context [nullish (prop ?x ?k) _] =>
          let F := fresh in
          let I := fresh in
          assert (In k settings_keys) as I by (simpl; auto 10);
          destruct (K k I) as [F|F]; rewrite F; clear F I
      end; reflexivity.
Qed.

Lemma settings_load_tolerant_witness :
  let w := mkWidget (set_inputSeconds 9 (set_flashingMode fast initial)) square red
                    (Parsed other_keys_only) in
  loadSettings w = Some (mkWidget initial circle blue (Parsed other_keys_only)).
Proof.
  cbv zeta.
  refine (proj2 (settings_load_tolerant
                   (mkWidget (set_inputSeconds 9 (set_flashingMode fast initial)) square red
                             (Parsed other_keys_only))) other_keys_only eq_refl _ _).
  - discriminate.
  - intros key H. simpl in H.
    destruct H as [<-|[<-|[<-|[<-|[<-|[<-|[]]]]]]]; left; reflexivity.
Defined.

Lemma loadSettings_item w w' : loadSettings w = Some w' -> item w' = item w.
Proof.
  unfold loadSettings. intro H.
  destruct (item w) as [| |j] eqn:E; try (injection H as <-; exact E).
  destruct j; try (injection H as <-; exact E);
    repeat match type of H with
    | context [match ?x with Some _ => _ | None => _ end] => destruct x; try discriminate H
    end; injection H as <-; reflexivity.
Qed.

Lemma settings_of_saveSettings w : settings_of (saveSettings w) = settings_of w.
Proof. reflexivity. Qed.

Lemma watchSettings_restored before after :
  restored (item before) = Some (settings_of before) -> item after = item before ->
  restored (item (watchSettings before after))
  = Some (settings_of (watchSettings before after)).
Proof.
  intros I E. unfold watchSettings.
  destruct (same_settings before after) eqn:S.
  - apply same_settings_true in S. rewrite E, <- S. exact I.
  - rewrite restored_saved. reflexivity.
Qed.

Lemma widget_step_restored ev w :
  restored (item w) = Some (settings_of w) ->
  restored (item (widget_step ev w)) = Some (settings_of (widget_step ev w)).
Proof.
  intro I. unfold widget_step. apply watchSettings_restored; [exact I|].
  destruct ev; reflexivity.
Qed.

Lemma mount_restored it w0 :
  mount it = Some w0 -> restored (item w0) = Some (settings_of w0).
Proof.
  unfold mount. destruct (loadSettings (fresh it)) as [w|] eqn:L; [|discriminate].
  intro E. injection E as <-. pose proof (loadSettings_item _ _ L) as I. simpl in I.
  unfold watchSettings. destruct (same_settings (fresh it) w) eqn:S.
  - rewrite I. unfold restored. rewrite L. reflexivity.
  - rewrite restored_saved. reflexivity.
Qed.

Lemma widget_run_restored evs w0 :
  restored (item w0) = Some (settings_of w0) ->
  restored (item (widget_run evs w0)) = Some (settings_of (widget_run evs w0)).
Proof.
  revert w0. unfold widget_run.
  induction evs as [|ev evs IH]; intros w0 I; simpl; [exact I|].
  apply IH, widget_step_restored, I.
Qed.

(** X16: the settings are always saved.  Let the component mount on a stored
    item that [loadSettings] can take into this model ([mount it] is
    [Some]): the item is absent, not JSON, or its values under the six keys,
    where present, are of the kinds [saveSettings] writes (the known names,
    whole numbers).  Then after any sequence of events (everything that can
    happen to the timer, whole numbers typed, and the choice of shape or
    colour) the stored item is one from which a newly mounted component gets
    exactly the present shape, colour, alarm mode and input fields. *)
Theorem settings_always_saved (it : Item) (w0 : Widget) (evs : list WidgetEvent) :
  mount it = Some w0 ->
  let w := widget_run evs w0 in
  restored (item w) = Some (settings_of w).
Proof.
  intro M. cbv zeta. apply widget_run_restored, (mount_restored _ _ M).
Qed.

Lemma settings_always_saved_witness :
  let w := widget_run [OnTimer (TypeMinutes 3); SelectColor green;
                       OnTimer (SelectMode fade); OnTimer (Click BtnStart)]
                      (fresh Unparsable) in
  restored (item w) = Some (circle, green, fade, 0, 3, 0).
Proof.
  cbv zeta.
  pose proof (settings_always_saved Unparsable (fresh Unparsable)
                [OnTimer (TypeMinutes 3); SelectColor green;
                 OnTimer (SelectMode fade); OnTimer (Click BtnStart)] eq_refl) as H.
  cbv zeta in H. rewrite H. vm_compute. reflexivity.
Defined.

(** X17: Delete also forgets the duration.  After mounting and any events, if a
    session exists and Delete is clicked, the stored item holds three zero
    fields: a component mounted on it afterwards shows an empty form with
    Start disabled. *)
Theorem delete_forgets_duration (it : Item) (w0 : Widget) (evs : list WidgetEvent) :
  mount it = Some w0 ->
  let w := widget_run evs w0 in
  let w' := widget_step (OnTimer (Click BtnDelete)) w in
  hasStarted (engine w) = true ->
  restored (item w')
  = Some (indicatorType w, ringColor w, flashingMode (engine w), 0, 0, 0) /\
  (forall w2, loadSettings (fresh (item w')) = Some w2 ->
     totalSeconds (engine w2) = 0 /\ canStart (engine w2) = false /\
     enabled BtnStart (engine w2) = false).
Proof.
  intros M. cbv zeta. intro S.
  pose proof (widget_step_restored (OnTimer (Click BtnDelete)) _
                (widget_run_restored evs _ (mount_restored _ _ M))) as I.
  set (w := widget_run evs w0) in *.
  assert (settings_of (widget_step (OnTimer (Click BtnDelete)) w)
          = (indicatorType w, ringColor w, flashingMode (engine w), 0, 0, 0)) as E.
  { unfold widget_step, watchSettings.
    match goal with |- context [if ?b then _ else _] => destruct b end;
      rewrite ?settings_of_saveSettings; unfold settings_of; simpl;
      destruct (engine w); simpl in *; subst; unfold_ops; simpl;
      destruct intervalId0, isAlarming0, alarmTimeoutId0, alarmIntervalId0; reflexivity. }
  rewrite E in I. split; [exact I|].
  intros w2 L. unfold restored in I. rewrite L in I. unfold settings_of in I.
  injection I as _ _ _ H Mi Se.
  assert (hasStarted (engine w2) = false) as S2.
  { clear - L. unfold loadSettings, fresh in L. simpl in L.
    destruct (item _) as [| |j]; try (injection L as <-; reflexivity).
    destruct j; try (injection L as <-; reflexivity);
      repeat match type of L with
      | context [match ?x with Some _ => _ | None => _ end] => destruct x; try discriminate L
      end; injection L as <-; reflexivity. }
  unfold totalSeconds, enabled, canStart. rewrite S2, H, Mi, Se. repeat split.
Qed.

Lemma delete_forgets_duration_witness :
  let w := widget_run [OnTimer (TypeMinutes 3); OnTimer (Click BtnStart)]
                      (fresh Absent) in
  restored (item w) = Some (circle, blue, none, 0, 3, 0) /\
  restored (item (widget_step (OnTimer (Click BtnDelete)) w))
  = Some (circle, blue, none, 0, 0, 0).
Proof.
  cbv zeta. split; [vm_compute; reflexivity|].
  assert (hasStarted (engine (widget_run [OnTimer (TypeMinutes 3); OnTimer (Click BtnStart)]
                                         (fresh Absent))) = true) as S
    by (vm_compute; reflexivity).
  pose proof (proj1 (delete_forgets_duration Absent (fresh Absent)
                       [OnTimer (TypeMinutes 3); OnTimer (Click BtnStart)] eq_refl S)) as H.
  rewrite H. vm_compute. reflexivity.
Defined.

(** ** The two revisions compared *)
























